(** * dashboard.py: acquisition and rendering of the market-price table

    A shallow embedding of [src/dashboard.py].  The script has two
    functions: [get_live_data], which reads a table from the live
    workbook, falls back to a CSV snapshot, cleans and projects it, and
    is memoised by [st.cache_data(ttl=2)]; and [main], which renders
    the page.  Everything the script gets from outside (xlwings, the
    file system, pandas' CSV parser, the timer, the button) is a
    parameter of the model; the pandas operations the script applies to
    the table itself ([dropna], label selection, [empty]) are written
    out on a row-major table. *)

From stdpp Require Import gmap strings list fin_maps.
From Stdlib Require Import QArith Ascii.

Open Scope string_scope.
Open Scope list_scope.
Open Scope Z_scope.

(** ** Exceptions and outcomes *)

(** The exceptions that occur.  [KeyError] is what pandas raises when a
    label is looked up and absent; it carries the absent labels.
    [ExternalError] stands for any other subclass of [Exception] raised
    by xlwings, the file system or the CSV reader, with its class name
    and its [str()]. *)
Inductive exn :=
| KeyError (labels : list string)
| ExternalError (cls : string) (msg : string).

Definition repr_str (s : string) : string := "'" +:+ s +:+ "'".

Fixpoint join (sep : string) (l : list string) : string :=
  match l with
  | [] => ""
  | [s] => s
  | s :: l' => s +:+ sep +:+ join sep l'
  end.

(** [str(e)], as the f-strings of the script format it. *)
Definition exn_str (e : exn) : string :=
  match e with
  | KeyError labels => "[" +:+ join ", " (repr_str <$> labels) +:+ "]"
  | ExternalError _ msg => msg
  end.

Inductive Outcome (A : Type) :=
| Ret (a : A)
| Raise (e : exn).
Arguments Ret {A} a.
Arguments Raise {A} e.

(** ** Tables *)

(** A cell of a table.  [PyNone] and [NaN] are the two missing values
    that occur ([None] in an object column, [nan] in a float column);
    pandas' [isna] treats both as null. *)
Inductive cell :=
| PyNone
| NaN
| Str (s : string)
| Num (q : Q).

Definition isna (c : cell) : bool :=
  match c with
  | PyNone | NaN => true
  | Str _ | Num _ => false
  end.

Definition notna (c : cell) : bool := negb (isna c).

(** A [pd.DataFrame], row-major: the column labels in order (pandas
    allows a label to occur more than once) and the rows.  The row
    index is not modelled: the script never reads it and the table
    widget hides it. *)
Record DataFrame := {
  columns : list string;
  rows : list (list cell)
}.

(** [pd.DataFrame()] *)
Definition DataFrame_new : DataFrame := {| columns := []; rows := [] |}.

(** [df.empty]: true when either axis has length zero. *)
Definition empty (df : DataFrame) : bool :=
  (length (columns df) =? 0)%nat || (length (rows df) =? 0)%nat.

(** The cell of row [r] at position [i]. *)
Definition cell_at (r : list cell) (i : nat) : cell := default NaN (r !! i).

(** All positions of label [key] among [cols], counted from [i]. *)
Fixpoint positions_from (i : nat) (key : string) (cols : list string) : list nat :=
  match cols with
  | [] => []
  | c :: cs =>
      if String.eqb c key then i :: positions_from (S i) key cs
      else positions_from (S i) key cs
  end.

Definition positions (key : string) (cols : list string) : list nat :=
  positions_from 0 key cols.

(** [Index.get_indexer_for]: for each requested label in turn, every
    position that carries it. *)
Definition get_indexer_for (cols keys : list string) : list nat :=
  flat_map (fun k => positions k cols) keys.

(** The requested labels that no column carries. *)
Definition not_found (cols keys : list string) : list string :=
  List.filter (fun k => negb (existsb (String.eqb k) cols)) keys.

(** [df.take(indices, axis=1)] *)
Definition take_columns (indices : list nat) (df : DataFrame) : DataFrame :=
  {| columns := (fun i => default "" (columns df !! i)) <$> indices;
     rows := (fun r => cell_at r <$> indices) <$> rows df |}.

(** [df.dropna(subset=subset)] with the defaults [axis=0], [how='any']:
    a [KeyError] when a label of [subset] is absent, otherwise the rows
    in which every selected cell is non-null. *)
Definition dropna (subset : list string) (df : DataFrame) : Outcome DataFrame :=
  match not_found (columns df) subset with
  | [] =>
      let indices := get_indexer_for (columns df) subset in
      Ret {| columns := columns df;
             rows := List.filter (fun r => forallb (fun i => notna (cell_at r i)) indices)
                                 (rows df) |}
  | missing => Raise (KeyError missing)
  end.

(** [df[keys]] for a list of labels: a [KeyError] when a label is
    absent, otherwise the selected columns in the order requested. *)
Definition getitem (keys : list string) (df : DataFrame) : Outcome DataFrame :=
  match not_found (columns df) keys with
  | [] => Ret (take_columns (get_indexer_for (columns df) keys) df)
  | missing => Raise (KeyError missing)
  end.

(** ** The outside world *)

(** A worksheet, as far as the script looks at it: the value of
    [sheet.range('A1').options(pd.DataFrame, header=1, index=False,
    expand='table').value], a table or an exception. *)
Record Sheet := { range_A1_table : Outcome DataFrame }.

(** A workbook: [book.sheets[name]] for every name. *)
Record Book := { sheets : string -> Outcome Sheet }.

(** A file on disk: one that cannot be opened or decoded, or its lines
    (blank lines, which the CSV reader passes over, left out). *)
Inductive File :=
| Unreadable (e : exn)
| Lines (ls : list string).

(** The outside world during one run of the script: [xw.Book(path)] for
    every path, the files that exist, and pandas' CSV parser,
    [pd_parse ls] being the table (or the exception) it makes of the
    lines [ls] when the first of them is the header. *)
Record World := {
  xw_Book : string -> Outcome Book;
  files : gmap string File;
  pd_parse : list string -> Outcome DataFrame
}.

(** ** What the script does to the outside *)

(** Accesses to the data sources, recorded in the order made. *)
Inductive access :=
| OpenBook (path : string)
| GetSheet (name : string)
| ReadRange
| PathExists (path : string)
| ReadCsv (path : string) (header : nat).

(** [st.column_config.NumberColumn(label, format=...)] *)
Record NumberColumn := { label : string; format : string }.

(** The Streamlit elements the script puts on the page. *)
Inductive element :=
| SetPageConfig (layout : string)
| Title (body : string)
| Markdown (body : string)
| Header (body : string)
| Columns (spec : list nat)
| InColumn (i : nat) (e : element)
| Button (text : string)
| Balloons
| Info (body : string)
| Success (body : string)
| Error (body : string)
| Dataframe (data : DataFrame) (hide_index use_container_width : bool)
            (column_config : gmap string NumberColumn)
| Caption (body : string).

Inductive event :=
| Access (a : access)
| Show (e : element).

Definition shown (evs : list event) : list element :=
  omap (fun ev => match ev with Show e => Some e | Access _ => None end) evs.

Definition accesses (evs : list event) : list access :=
  omap (fun ev => match ev with Access a => Some a | Show _ => None end) evs.

(** ** The cache of [st.cache_data] *)

(** [get_live_data] takes no argument, so its cache holds at most one
    entry: the value returned, the elements the call put on the page
    (Streamlit replays them on a hit) and the timer reading at which
    the entry was stored.  Timer readings are in milliseconds. *)
Record CacheEntry := {
  stored_at : Z;
  value : DataFrame;
  replay : list element
}.

Definition Cache := option CacheEntry.

(** ** The monad of the script *)

(** A computation reads and updates the cache, records events and
    either returns or raises. *)
Definition M (A : Type) : Type := Cache -> Outcome A * list event * Cache.

#[export] Instance M_ret : MRet M := fun A a c => (Ret a, [], c).

#[export] Instance M_bind : MBind M := fun A B f m c =>
  match m c with
  | (Ret a, evs, c') =>
      match f a c' with
      | (o, evs', c'') => (o, evs ++ evs', c'')
      end
  | (Raise e, evs, c') => (Raise e, evs, c')
  end.

(** An operation of the outside world: record the access, then return
    or raise what the world answers. *)
Definition perform {A} (a : access) (o : Outcome A) : M A :=
  fun c => (o, [Access a], c).

Definition st (e : element) : M unit := fun c => (Ret tt, [Show e], c).

(** [try: body  except Exception as e: handler e] *)
Definition try_except {A} (body : M A) (handler : exn -> M A) : M A := fun c =>
  match body c with
  | (Ret a, evs, c') => (Ret a, evs, c')
  | (Raise e, evs, c') =>
      match handler e c' with
      | (o, evs', c'') => (o, evs ++ evs', c'')
      end
  end.

(** ** Configuration *)

Definition EXCEL_FILE : string := "Live_DAP.xlsx".
Definition SHEET_NAME : string := "DAP_Main".
Definition CSV_FALLBACK : string := "Live_DAP.xlsx - DAP_Main.csv".

(** The time-to-live of [st.cache_data(ttl=2)], in milliseconds. *)
Definition ttl : Z := 2000.

(** ** [get_live_data] *)

Definition display_columns : list string :=
  ["Outrights"; "Last"; "Settle"; "BidQty"; "Bid"; "Ask"; "AskQty"; "VWAP"].

Definition os_path_exists (w : World) (path : string) : M bool :=
  perform (PathExists path) (Ret (bool_decide (is_Some (files w !! path)))).

(** [pd.read_csv(path, header=h)]: line [h] is the header, the lines
    before it are skipped, the lines after it are the data. *)
Definition read_csv (w : World) (path : string) (header : nat) : Outcome DataFrame :=
  match files w !! path with
  | Some (Lines ls) => pd_parse w (drop header ls)
  | Some (Unreadable e) => Raise e
  | None => Raise (ExternalError "FileNotFoundError"
                     ("[Errno 2] No such file or directory: " +:+ repr_str path))
  end.

Definition pd_read_csv (w : World) (path : string) (header : nat) : M DataFrame :=
  perform (ReadCsv path header) (read_csv w path header).

Definition lift {A} (o : Outcome A) : M A := fun c => (o, [], c).

(** The statements of the [try] blocks and of their handlers either
    bind [data] and fall through to the post-processing ([inr]) or
    return from the function ([inl]). *)

(** The outer [try] block, lines 19 to 28. *)
Definition live_block (w : World) : M (DataFrame + DataFrame) :=
  book ← perform (OpenBook EXCEL_FILE) (xw_Book w EXCEL_FILE);
  sheet ← perform (GetSheet SHEET_NAME) (sheets book SHEET_NAME);
  data ← perform ReadRange (range_A1_table sheet);
  st (Success "Successfully fetched data from live Excel sheet via xlwings.");;
  mret (inr data).

(** The inner [try ... except], lines 35 to 45. *)
Definition fallback_block (w : World) : M (DataFrame + DataFrame) :=
  try_except
    (found ← os_path_exists w CSV_FALLBACK;
     if found : bool then
       data ← pd_read_csv w CSV_FALLBACK 1;
       mret (inr data)
     else
       st (Error ("Fallback CSV file not found: " +:+ CSV_FALLBACK));;
       mret (inl DataFrame_new))
    (fun csv_e =>
     st (Error ("Failed to read fallback CSV: " +:+ exn_str csv_e));;
     mret (inl DataFrame_new)).

(** Lines 18 to 45. *)
Definition read_sources (w : World) : M (DataFrame + DataFrame) :=
  try_except
    (live_block w)
    (fun e =>
     st (Error ("Failed to connect to Excel with xlwings: " +:+ exn_str e));;
     st (Info ("Falling back to reading the static CSV snapshot: " +:+ CSV_FALLBACK));;
     fallback_block w).

(** The body of [get_live_data], without the decorator. *)
Definition get_live_data_body (w : World) : M DataFrame :=
  r ← read_sources w;
  match r with
  | inl returned => mret returned
  | inr data =>
      data ← lift (dropna ["Outrights"] data);
      lift (getitem display_columns data)
  end.

(** The entry a call at timer reading [now] hits, if any: an entry
    lives while the timer is below its expiry, [stored_at + ttl]. *)
Definition cache_lookup (now : Z) (c : Cache) : option CacheEntry :=
  match c with
  | Some entry => if now <? stored_at entry + ttl then Some entry else None
  | None => None
  end.

(** [get_live_data] as decorated with [st.cache_data(ttl=2)]: on a hit
    the stored value is returned and its elements replayed, and the
    body does not run; on a miss the body runs and, when it returns,
    its value and elements are stored with the current timer reading.
    A call that raises stores nothing. *)
Definition get_live_data (w : World) (now : Z) : M DataFrame := fun c =>
  match cache_lookup now c with
  | Some entry => (Ret (value entry), Show <$> replay entry, c)
  | None =>
      match get_live_data_body w c with
      | (Ret v, evs, _) =>
          (Ret v, evs, Some {| stored_at := now; value := v; replay := shown evs |})
      | (Raise e, evs, _) => (Raise e, evs, c)
      end
  end.

(** ** [main] *)

(** The [column_config] dictionary passed to [st.dataframe]. *)
Definition column_config : gmap string NumberColumn :=
  list_to_map
    [("Last", {| label := "Last"; format := "%.3f" |});
     ("Settle", {| label := "Settle"; format := "%.3f" |});
     ("Bid", {| label := "Bid"; format := "%.3f" |});
     ("Ask", {| label := "Ask"; format := "%.3f" |});
     ("VWAP", {| label := "VWAP"; format := "%.4f" |})].

(** [col.button(text)]: the widget is drawn and the call returns
    whether this run of the script was triggered by a click on it. *)
Definition button (col : nat) (text : string) (pressed : bool) : M bool :=
  st (InColumn col (Button text));; mret pressed.

(** The manual-refresh section, lines 56 to 73. *)
Definition refresh_section (pressed : bool) : M unit :=
  st (SetPageConfig "wide");;
  st (Title "📈 Live Market Prices Dashboard");;
  st (Markdown "---");;
  st (Header "Manual Data Refresh");;
  st (Columns [1; 4]%nat);;
  clicked ← button 0 "Force Refresh from Excel" pressed;
  (if clicked : bool then st Balloons else mret tt);;
  st (InColumn 1 (Info "Press the button to force a new read from the live Excel sheet. This is necessary to view updated prices if your Excel sheet is actively calculating."));;
  st (Markdown "---").

Definition no_data_message : string :=
  "No data to display. Please check file paths and ensure your Excel file is open if using xlwings.".

(** The [if not df.empty: ... else: ...] of lines 83 to 100; [hms] is
    the value of [time.strftime('%H:%M:%S')]. *)
Definition display (hms : string) (df : DataFrame) : M unit :=
  if negb (empty df) then
    st (Dataframe df true true column_config);;
    st (Caption ("Last updated: **" +:+ hms +:+ "**"))
  else
    st (Error no_data_message).

(** One run of the script: [w] is the outside world as it is during
    the run, [now] the timer reading at the call of
    [get_live_data], [hms] the wall clock at the caption and [pressed]
    whether the run was triggered by the button. *)
Definition main (w : World) (now : Z) (hms : string) (pressed : bool) : M unit :=
  refresh_section pressed;;
  st (Header "DAP Main Market Prices - Live View");;
  df ← get_live_data w now;
  display hms df.

(** ** Notions of the specification *)

(** The field of row [r] under the label [key], in a table whose column
    labels are [cols]: the cell below the first column so labelled. *)
Fixpoint field (cols : list string) (r : list cell) (key : string) : cell :=
  match cols, r with
  | c :: cs, x :: xs => if String.eqb c key then x else field cs xs key
  | _, _ => NaN
  end.

(** A row is kept when its instrument identifier is populated. *)
Definition populated (cols : list string) (r : list cell) : bool :=
  notna (field cols r "Outrights").

(** A row reduced to the eight fields of the output schema, in order. *)
Definition project (cols : list string) (r : list cell) : list cell :=
  (fun key => field cols r key) <$> display_columns.

(** Cleaning and projection as the specification words them: the rows
    with a populated identifier, each reduced to the eight fields. *)
Definition clean_project (t : DataFrame) : DataFrame :=
  {| columns := display_columns;
     rows := project (columns t) <$> List.filter (populated (columns t)) (rows t) |}.

(** The table contains the eight named columns: each of the eight
    labels names one column of it. *)
Definition has_display_columns (t : DataFrame) : Prop :=
  Forall (fun key => count_occ String.string_dec (columns t) key = 1%nat) display_columns.

(** What the three steps of the live read come to. *)
Definition live_read (w : World) : Outcome DataFrame :=
  match xw_Book w EXCEL_FILE with
  | Ret book =>
      match sheets book SHEET_NAME with
      | Ret sheet => range_A1_table sheet
      | Raise e => Raise e
      end
  | Raise e => Raise e
  end.

(** The fallback file is missing, or it exists and cannot be read. *)
Definition fallback_unavailable (w : World) : Prop :=
  files w !! CSV_FALLBACK = None \/
  exists e, is_Some (files w !! CSV_FALLBACK) /\ read_csv w CSV_FALLBACK 1 = Raise e.

(** The source table of a run: the live table, or the table read from
    the fallback file when the live read fails. *)
Definition source_table (w : World) (t : DataFrame) : Prop :=
  live_read w = Ret t \/
  (exists e, live_read w = Raise e) /\
  is_Some (files w !! CSV_FALLBACK) /\ read_csv w CSV_FALLBACK 1 = Ret t.

(** The decimals a printf-style format of the shape [%.Nf] asks for,
    [N] a single digit. *)
Definition digit_of (a : ascii) : option nat :=
  let n := nat_of_ascii a in
  if ((48 <=? n) && (n <=? 57))%nat then Some (n - 48)%nat else None.

Definition format_decimals (fmt : string) : option nat :=
  match fmt with
  | String "%" (String "." (String d (String "f" EmptyString))) => digit_of d
  | _ => None
  end.

(** The decimals configured for the column labelled [key]. *)
Definition decimals_of (cfg : gmap string NumberColumn) (key : string) : option nat :=
  nc ← cfg !! key; format_decimals (format nc).

(** ** Example worlds *)

(** A parser sufficient for the examples: fields separated by commas,
    no quoting; an empty field is read as [NaN], any other is kept as
    text; no lines at all is an error. *)
Fixpoint split_commas (cur : string) (s : string) : list string :=
  match s with
  | EmptyString => [cur]
  | String a s' =>
      if Ascii.eqb a "," then cur :: split_commas "" s'
      else split_commas (cur +:+ String a EmptyString) s'
  end.

Definition parse_field (s : string) : cell :=
  if String.eqb s "" then NaN else Str s.

Definition simple_parse (ls : list string) : Outcome DataFrame :=
  match ls with
  | [] => Raise (ExternalError "EmptyDataError" "No columns to parse from file")
  | h :: body =>
      Ret {| columns := split_commas "" h;
             rows := (fun l => parse_field <$> split_commas "" l) <$> body |}
  end.

Definition no_excel : string -> Outcome Book :=
  fun _ => Raise (ExternalError "Exception" "Excel is not running").

(** A world whose live sheet holds the table [t] and which has no
    fallback file. *)
Definition live_world (t : DataFrame) : World :=
  {| xw_Book := fun _ => Ret {| sheets := fun _ => Ret {| range_A1_table := Ret t |} |};
     files := ∅;
     pd_parse := simple_parse |}.

(** A world without Excel whose fallback file has the lines [ls]. *)
Definition fallback_world (ls : list string) : World :=
  {| xw_Book := no_excel;
     files := {[ CSV_FALLBACK := Lines ls ]};
     pd_parse := simple_parse |}.

(** A world without Excel and without the fallback file. *)
Definition bare_world : World :=
  {| xw_Book := no_excel; files := ∅; pd_parse := simple_parse |}.

Definition quotes : DataFrame :=
  {| columns := ["Outrights"; "Last"; "Settle"; "BidQty"; "Bid"; "Ask"; "AskQty"; "VWAP"; "Volume"];
     rows := [[Str "ZNH6"; Num 1.5; Num 1.25; Num 10; Num 1.25; Num 1.5; Num 7; Num 1.375; Num 90];
              [NaN; Num 2.5; Num 2.25; Num 3; Num 2.25; Num 2.5; Num 4; Num 2.375; Num 12];
              [Str ""; Num 3.5; Num 3.25; Num 5; Num 3.25; Num 3.5; Num 6; Num 3.375; Num 40]] |}.

Definition snapshot_lines : list string :=
  ["Outrights,Last,Settle,BidQty,Bid,Ask,AskQty,VWAP";
   "Outrights,Last,Settle,BidQty,Bid,Ask,AskQty,VWAP";
   "ZNH6,1.5,1.25,10,1.25,1.5,7,1.375";
   ",2.5,2.25,3,2.25,2.5,4,2.375"].

(** ** Summaries of the runs, and further example data *)

(** The messages of [get_live_data]. *)
Definition msg_connect_failed (e : exn) : string :=
  "Failed to connect to Excel with xlwings: " +:+ exn_str e.
Definition msg_falling_back : string :=
  "Falling back to reading the static CSV snapshot: " +:+ CSV_FALLBACK.
Definition msg_not_found : string :=
  "Fallback CSV file not found: " +:+ CSV_FALLBACK.
Definition msg_read_failed (e : exn) : string :=
  "Failed to read fallback CSV: " +:+ exn_str e.
Definition msg_fetched : string :=
  "Successfully fetched data from live Excel sheet via xlwings.".

(** The accesses of the three steps of the live read, up to the one
    that raises. *)
Definition live_attempt (w : World) : list event :=
  match xw_Book w EXCEL_FILE with
  | Raise _ => [Access (OpenBook EXCEL_FILE)]
  | Ret book =>
      match sheets book SHEET_NAME with
      | Raise _ => [Access (OpenBook EXCEL_FILE); Access (GetSheet SHEET_NAME)]
      | Ret _ =>
          [Access (OpenBook EXCEL_FILE); Access (GetSheet SHEET_NAME); Access ReadRange]
      end
  end.

(** The events of the inner [try ... except]. *)
Definition fallback_read_events (w : World) : list event :=
  Access (PathExists CSV_FALLBACK) ::
  match files w !! CSV_FALLBACK with
  | None => [Show (Error msg_not_found)]
  | Some _ =>
      Access (ReadCsv CSV_FALLBACK 1) ::
      match read_csv w CSV_FALLBACK 1 with
      | Ret _ => []
      | Raise csv_e => [Show (Error (msg_read_failed csv_e))]
      end
  end.

(** What the inner [try ... except] hands on. *)
Definition fallback_result (w : World) : DataFrame + DataFrame :=
  match files w !! CSV_FALLBACK with
  | None => inl DataFrame_new
  | Some _ =>
      match read_csv w CSV_FALLBACK 1 with
      | Ret t => inr t
      | Raise _ => inl DataFrame_new
      end
  end.

(** Lines 48 to 53 on the table [data]. *)
Definition post_process (data : DataFrame) : Outcome DataFrame :=
  match dropna ["Outrights"] data with
  | Ret cleaned => getitem display_columns cleaned
  | Raise e => Raise e
  end.

(** The outcome of one run of the body. *)
Definition body_outcome (w : World) : Outcome DataFrame :=
  match live_read w with
  | Ret t => post_process t
  | Raise _ =>
      match fallback_result w with
      | inl returned => Ret returned
      | inr t => post_process t
      end
  end.

(** The events of one run of the body. *)
Definition body_events (w : World) : list event :=
  match live_read w with
  | Ret _ => live_attempt w ++ [Show (Success msg_fetched)]
  | Raise e =>
      live_attempt w ++
      [Show (Error (msg_connect_failed e)); Show (Info msg_falling_back)] ++
      fallback_read_events w
  end.

(** What [refresh_section] puts on the page. *)
Definition refresh_events (pressed : bool) : list event :=
  [Show (SetPageConfig "wide");
   Show (Title "📈 Live Market Prices Dashboard");
   Show (Markdown "---");
   Show (Header "Manual Data Refresh");
   Show (Columns [1; 4]%nat);
   Show (InColumn 0 (Button "Force Refresh from Excel"))] ++
  (if pressed then [Show Balloons] else []) ++
  [Show (InColumn 1 (Info "Press the button to force a new read from the live Excel sheet. This is necessary to view updated prices if your Excel sheet is actively calculating."));
   Show (Markdown "---")].

(** What [display] puts on the page for the acquisition result [df]. *)
Definition rendered (hms : string) (df : DataFrame) : list event :=
  if empty df then [Show (Error no_data_message)]
  else [Show (Dataframe df true true column_config);
        Show (Caption ("Last updated: **" +:+ hms +:+ "**"))].

(** What [simple_parse] makes of [snapshot_lines] without their first
    line. *)
Definition snapshot_table : DataFrame :=
  {| columns := ["Outrights"; "Last"; "Settle"; "BidQty"; "Bid"; "Ask"; "AskQty"; "VWAP"];
     rows := [[Str "ZNH6"; Str "1.5"; Str "1.25"; Str "10"; Str "1.25"; Str "1.5";
               Str "7"; Str "1.375"];
              [NaN; Str "2.5"; Str "2.25"; Str "3"; Str "2.25"; Str "2.5"; Str "4";
               Str "2.375"]] |}.

(** A sheet in which no row has an identifier. *)
Definition unquoted : DataFrame :=
  {| columns := ["Outrights"; "Last"; "Settle"; "BidQty"; "Bid"; "Ask"; "AskQty"; "VWAP"];
     rows := [[NaN; Num 2.5; Num 2.25; Num 3; Num 2.25; Num 2.5; Num 4; Num 2.375];
              [PyNone; PyNone; PyNone; PyNone; PyNone; PyNone; PyNone; PyNone]] |}.

(** A live sheet whose identifier column goes by another name. *)
Definition mislabelled : DataFrame :=
  {| columns := ["Contract"; "Last"; "Settle"; "BidQty"; "Bid"; "Ask"; "AskQty"; "VWAP"];
     rows := [[Str "ZNH6"; Num 1.5; Num 1.25; Num 10; Num 1.25; Num 1.5; Num 7; Num 1.375]] |}.

(** The run of [get_live_data] in the world without sources. *)
Definition bare_events : list event :=
  [Access (OpenBook EXCEL_FILE);
   Show (Error (msg_connect_failed (ExternalError "Exception" "Excel is not running")));
   Show (Info msg_falling_back);
   Access (PathExists CSV_FALLBACK);
   Show (Error msg_not_found)].

Definition bare_entry : CacheEntry :=
  {| stored_at := 0; value := DataFrame_new; replay := shown bare_events |}.

(** The run of [get_live_data] on the live sheet [quotes]. *)
Definition quotes_events : list event :=
  [Access (OpenBook EXCEL_FILE); Access (GetSheet SHEET_NAME); Access ReadRange;
   Show (Success msg_fetched)].

Definition quotes_entry (now : Z) : CacheEntry :=
  {| stored_at := now; value := clean_project quotes; replay := shown quotes_events |}.

(** The start of the memoization window a call at timer reading [now]
    falls in: the reading at which the entry it hits was stored, or
    [now] itself when the call misses and stores its own result. *)
Definition window_start (now : Z) (c : Cache) : Z :=
  match cache_lookup now c with
  | Some entry => stored_at entry
  | None => now
  end.

(** The tables a run put on the page. *)
Definition tables (evs : list event) : list DataFrame :=
  omap (fun ev => match ev with
                  | Show (Dataframe df _ _ _) => Some df
                  | _ => None
                  end) evs.

(** The sheet of [quotes] after the prices have moved. *)
Definition quotes_repriced : DataFrame :=
  {| columns := ["Outrights"; "Last"; "Settle"; "BidQty"; "Bid"; "Ask"; "AskQty"; "VWAP"; "Volume"];
     rows := [[Str "ZNH6"; Num 1.75; Num 1.25; Num 8; Num 1.5; Num 1.75; Num 9; Num 1.5; Num 95]] |}.

(** ** Sessions *)

(** Streamlit runs the script anew on every interaction, be it a page
    load or a press of the button.  A run has the world as it is at
    that moment, its timer reading, its wall clock and whether the
    button triggered it. *)
Record Run := {
  run_world : World;
  run_now : Z;
  run_hms : string;
  run_pressed : bool
}.

Definition run_main (r : Run) : M unit :=
  main (run_world r) (run_now r) (run_hms r) (run_pressed r).

(** The runs of a session in turn.  The cache outlives each run, one
    that ends in an exception included; the result is, for each run,
    how it ended and what it did, and the cache left at the end. *)
Fixpoint session (runs : list Run) (c : Cache)
    : list (Outcome unit * list event) * Cache :=
  match runs with
  | [] => ([], c)
  | r :: rest =>
      match run_main r c with
      | (o, page, c') =>
          match session rest c' with
          | (pages, c'') => ((o, page) :: pages, c'')
          end
      end
  end.

(** The live workbook was opened during the events [evs]. *)
Definition polled (evs : list event) : Prop :=
  In (Access (OpenBook EXCEL_FILE)) evs.

(** The cache holds an entry stored at [s] or later. *)
Definition stamped_from (s : Z) (c : Cache) : Prop :=
  exists entry, c = Some entry /\ s <= stored_at entry.

(** The labels of the output schema that the column labels [cols] lack. *)
Definition lacking (cols : list string) : list string :=
  List.filter (fun key => bool_decide (key ∉ cols)) display_columns.

(** ** Further example data *)

(** A live sheet without the [Bid] and [VWAP] columns. *)
Definition partial_sheet : DataFrame :=
  {| columns := ["Outrights"; "Last"; "Settle"; "BidQty"; "Ask"; "AskQty"];
     rows := [[Str "ZNH6"; Num 1.5; Num 1.25; Num 10; Num 1.5; Num 7]] |}.

(** The run of [get_live_data] on the fallback file [snapshot_lines]. *)
Definition snapshot_events : list event :=
  [Access (OpenBook EXCEL_FILE);
   Show (Error (msg_connect_failed (ExternalError "Exception" "Excel is not running")));
   Show (Info msg_falling_back);
   Access (PathExists CSV_FALLBACK);
   Access (ReadCsv CSV_FALLBACK 1)].

Definition snapshot_entry : CacheEntry :=
  {| stored_at := 0; value := clean_project snapshot_table;
     replay := shown snapshot_events |}.

(** A session of three runs: a page load, a press of the button half a
    second later, and another press two seconds after the load. *)
Definition first_run : Run :=
  {| run_world := live_world quotes; run_now := 0;
     run_hms := "09:30:00"; run_pressed := false |}.

Definition second_run : Run :=
  {| run_world := live_world quotes_repriced; run_now := 500;
     run_hms := "09:30:00"; run_pressed := true |}.

Definition third_run : Run :=
  {| run_world := live_world quotes_repriced; run_now := 2000;
     run_hms := "09:30:02"; run_pressed := true |}.

(** A sheet with two identifier columns, one of them blank in the
    second row. *)
Definition two_identifiers : DataFrame :=
  {| columns := ["Outrights"; "Last"; "Settle"; "BidQty"; "Bid"; "Ask"; "AskQty"; "VWAP";
                 "Outrights"];
     rows := [[Str "ZNH6"; Num 1.5; Num 1.25; Num 10; Num 1.25; Num 1.5; Num 7; Num 1.375;
               Str "ZN"];
              [Str "ZNM6"; Num 2.5; Num 2.25; Num 3; Num 2.25; Num 2.5; Num 4; Num 2.375;
               NaN]] |}.

(** A sheet that holds the header row and nothing else. *)
Definition headers_only : DataFrame :=
  {| columns := ["Outrights"; "Last"; "Settle"; "BidQty"; "Bid"; "Ask"; "AskQty"; "VWAP"];
     rows := [] |}.

Ltac run_M :=
  unfold try_except, mbind, M_bind, mret, M_ret, perform, st, lift,
    os_path_exists, pd_read_csv; simpl.

(** ** Label selection *)

Section Selection.

Variable cols : list string.

Lemma positions_from_length (key : string) (n : nat) :
  length (positions_from n key cols) = count_occ String.string_dec cols key.
Proof.
  revert n. induction cols as [|c cs IH]; intros n; simpl; [reflexivity|].
  destruct (String.eqb_spec c key) as [->|Hne].
  - destruct (String.string_dec key key) as [_|]; [|congruence].
    simpl. by rewrite IH.
  - destruct (String.string_dec c key) as [|_]; [congruence|]. apply IH.
Qed.

Lemma existsb_eqb_In (key : string) :
  existsb (String.eqb key) cols = true <-> In key cols.
Proof.
  rewrite existsb_exists. split.
  - intros (c & Hin & Heq). apply String.eqb_eq in Heq. by subst.
  - intros Hin. exists key. split; [done|]. apply String.eqb_refl.
Qed.

Lemma not_found_nil (keys : list string) :
  not_found cols keys = [] <-> Forall (fun key => In key cols) keys.
Proof.
  unfold not_found. induction keys as [|k ks IH]; simpl.
  - split; [constructor | done].
  - destruct (existsb (String.eqb k) cols) eqn:Hk; simpl.
    + rewrite IH. apply existsb_eqb_In in Hk. split.
      * by constructor.
      * by inversion 1.
    + split; [done|]. inversion 1 as [|? ? Hin _]; subst.
      apply existsb_eqb_In in Hin. congruence.
Qed.

Lemma once_In (key : string) :
  count_occ String.string_dec cols key = 1%nat -> In key cols.
Proof. intros H. apply (count_occ_In String.string_dec). lia. Qed.

End Selection.

(** A label that names one column selects one position, the one whose
    cell [field] reads. *)
Lemma positions_from_once (cols : list string) (key : string) (n : nat) :
  count_occ String.string_dec cols key = 1%nat ->
  exists i, positions_from n key cols = [(n + i)%nat] /\
            cols !! i = Some key /\
            forall r, cell_at r i = field cols r key.
Proof.
  revert n. induction cols as [|c cs IH]; intros n; simpl; [done|].
  destruct (String.eqb_spec c key) as [->|Hne].
  - destruct (String.string_dec key key) as [_|]; [|congruence].
    intros Hc. exists 0%nat. split; [|split].
    + pose proof (positions_from_length cs key (S n)) as Hlen.
      destruct (positions_from (S n) key cs); simpl in Hlen; [|lia].
      by rewrite Nat.add_0_r.
    + reflexivity.
    + intros [|x xs]; reflexivity.
  - destruct (String.string_dec c key) as [|_]; [congruence|].
    intros Hc. destruct (IH (S n) Hc) as (i & Hpos & Hlook & Hcell).
    exists (S i). split; [|split].
    + by rewrite Hpos, Nat.add_succ_r.
    + exact Hlook.
    + intros [|x xs]; [reflexivity|]. apply Hcell.
Qed.

Lemma positions_once (cols : list string) (key : string) :
  count_occ String.string_dec cols key = 1%nat ->
  exists i, positions key cols = [i] /\
            cols !! i = Some key /\
            forall r, cell_at r i = field cols r key.
Proof. intros H. exact (positions_from_once cols key 0 H). Qed.

(** Selecting labels that each name one column yields those labels, and
    under them the fields of each row. *)
Lemma take_columns_once (keys : list string) (df : DataFrame) :
  Forall (fun key => count_occ String.string_dec (columns df) key = 1%nat) keys ->
  take_columns (get_indexer_for (columns df) keys) df =
  {| columns := keys;
     rows := (fun r => (fun key => field (columns df) r key) <$> keys) <$> rows df |}.
Proof.
  intros Hall. unfold take_columns. f_equal.
  - induction Hall as [|k ks Hk _ IH]; [reflexivity|].
    unfold get_indexer_for in *. simpl. rewrite fmap_app, IH.
    destruct (positions_once _ _ Hk) as (i & -> & Hlook & _).
    simpl. by rewrite Hlook.
  - apply list_fmap_ext. intros _ r _.
    induction Hall as [|k ks Hk _ IH]; [reflexivity|].
    unfold get_indexer_for in *. simpl. rewrite fmap_app, IH.
    destruct (positions_once _ _ Hk) as (i & -> & _ & Hcell).
    simpl. by rewrite Hcell.
Qed.

Lemma dropna_outrights (t : DataFrame) :
  count_occ String.string_dec (columns t) "Outrights" = 1%nat ->
  dropna ["Outrights"] t =
  Ret {| columns := columns t;
         rows := List.filter (populated (columns t)) (rows t) |}.
Proof.
  intros Hk. unfold dropna.
  assert (not_found (columns t) ["Outrights"] = []) as ->.
  { apply not_found_nil. constructor; [by apply once_In | constructor]. }
  do 2 f_equal. apply filter_ext. intros r.
  unfold get_indexer_for, populated. simpl.
  destruct (positions_once _ _ Hk) as (i & -> & _ & Hcell).
  simpl. by rewrite Hcell, andb_true_r.
Qed.

Lemma getitem_display (t : DataFrame) :
  has_display_columns t ->
  getitem display_columns t =
  Ret {| columns := display_columns; rows := project (columns t) <$> rows t |}.
Proof.
  intros Hall. unfold getitem.
  assert (not_found (columns t) display_columns = []) as ->.
  { apply not_found_nil. eapply Forall_impl; [exact Hall|].
    intros key. apply once_In. }
  by rewrite take_columns_once.
Qed.

(** The post-processing of lines 48 to 53 on a table that contains the
    eight named columns is the cleaning and projection of the
    specification. *)
Lemma post_processing (t : DataFrame) :
  has_display_columns t ->
  forall data, dropna ["Outrights"] t = Ret data ->
  getitem display_columns data = Ret (clean_project t).
Proof.
  intros Hall data. rewrite dropna_outrights; [|by inversion Hall].
  intros [= <-]. by rewrite getitem_display.
Qed.

(** A label carried by two columns selects both: the selection of a
    table with two [Last] columns has nine columns.  This is why
    [has_display_columns] asks for each label to name one column. *)
Example duplicated_label_selected_twice :
  getitem display_columns
    {| columns := ["Outrights"; "Last"; "Last"; "Settle"; "BidQty"; "Bid"; "Ask";
                   "AskQty"; "VWAP"];
       rows := [] |} =
  Ret {| columns := ["Outrights"; "Last"; "Last"; "Settle"; "BidQty"; "Bid"; "Ask";
                     "AskQty"; "VWAP"];
         rows := [] |}.
Proof. reflexivity. Qed.

(** Reading with [header=1] is parsing the file without its first
    line. *)
Lemma read_csv_skips_first (w : World) (path first : string) (rest : list string) :
  files w !! path = Some (Lines (first :: rest)) ->
  read_csv w path 1 = pd_parse w rest.
Proof. intros Hfile. unfold read_csv. by rewrite Hfile. Qed.

Example read_snapshot :
  read_csv (fallback_world snapshot_lines) CSV_FALLBACK 1 = Ret snapshot_table.
Proof. reflexivity. Qed.

(** ** The paths through [get_live_data] *)

Lemma live_block_run (w : World) (c : Cache) :
  live_block w c =
  match live_read w with
  | Ret t => (Ret (inr t), live_attempt w ++ [Show (Success msg_fetched)], c)
  | Raise e => (Raise e, live_attempt w, c)
  end.
Proof.
  unfold live_read, live_attempt, live_block. run_M.
  destruct (xw_Book w EXCEL_FILE) as [book|]; [|done]. simpl.
  destruct (sheets book SHEET_NAME) as [sheet|]; [|done]. simpl.
  by destruct (range_A1_table sheet).
Qed.

Lemma fallback_block_run (w : World) (c : Cache) :
  fallback_block w c = (Ret (fallback_result w), fallback_read_events w, c).
Proof.
  unfold fallback_block, fallback_result, fallback_read_events. run_M.
  destruct (files w !! CSV_FALLBACK) as [f|] eqn:Hf.
  - rewrite bool_decide_eq_true_2 by eauto.
    by destruct (read_csv w CSV_FALLBACK 1).
  - rewrite bool_decide_eq_false_2 by (intros [? ?]; done). done.
Qed.

Lemma read_sources_live (w : World) (t : DataFrame) (c : Cache) :
  live_read w = Ret t ->
  read_sources w c = (Ret (inr t), live_attempt w ++ [Show (Success msg_fetched)], c).
Proof.
  intros Hlive. unfold read_sources, try_except.
  by rewrite live_block_run, Hlive.
Qed.

Lemma read_sources_fallback (w : World) (e : exn) (c : Cache) :
  live_read w = Raise e ->
  read_sources w c =
  (Ret (fallback_result w),
   live_attempt w ++
   [Show (Error (msg_connect_failed e)); Show (Info msg_falling_back)] ++
   fallback_read_events w, c).
Proof.
  intros Hlive. unfold read_sources, try_except.
  rewrite live_block_run, Hlive.
  unfold mbind, M_bind, st. by rewrite fallback_block_run.
Qed.

Lemma body_run (w : World) (c : Cache) :
  get_live_data_body w c = (body_outcome w, body_events w, c).
Proof.
  unfold get_live_data_body, body_outcome, body_events, post_process.
  unfold mbind, M_bind.
  destruct (live_read w) as [t|e] eqn:Hlive.
  - rewrite (read_sources_live w t c Hlive). unfold lift.
    destruct (dropna ["Outrights"] t) as [cleaned|]; simpl.
    + destruct (getitem display_columns cleaned); by rewrite !app_nil_r.
    + by rewrite app_nil_r.
  - rewrite (read_sources_fallback w e c Hlive).
    destruct (fallback_result w) as [returned|t].
    + unfold mret, M_ret. by rewrite app_nil_r.
    + unfold lift. destruct (dropna ["Outrights"] t) as [cleaned|]; simpl.
      * destruct (getitem display_columns cleaned); by rewrite !app_nil_r.
      * by rewrite app_nil_r.
Qed.

(** A call that misses the cache runs the body and stores what it
    returns. *)
Lemma get_live_data_miss (w : World) (now : Z) (c : Cache) :
  cache_lookup now c = None ->
  get_live_data w now c =
  match body_outcome w with
  | Ret v =>
      (Ret v, body_events w,
       Some {| stored_at := now; value := v; replay := shown (body_events w) |})
  | Raise e => (Raise e, body_events w, c)
  end.
Proof. intros Hmiss. unfold get_live_data. by rewrite Hmiss, body_run. Qed.

(** A call that hits the cache touches no data source. *)
Lemma get_live_data_hit (w : World) (now : Z) (c : Cache) (entry : CacheEntry) :
  cache_lookup now c = Some entry ->
  get_live_data w now c = (Ret (value entry), Show <$> replay entry, c).
Proof. intros Hhit. unfold get_live_data. by rewrite Hhit. Qed.

Lemma cache_lookup_Some (now : Z) (c : Cache) (entry : CacheEntry) :
  cache_lookup now c = Some entry <-> c = Some entry /\ now < stored_at entry + ttl.
Proof.
  unfold cache_lookup. destruct c as [e0|].
  - destruct (Z.ltb_spec now (stored_at e0 + ttl)) as [Hlt|Hge]; split.
    + by intros [= ->].
    + by intros [[= ->] _].
    + done.
    + intros [[= ->] Hlt]. lia.
  - split; [done | by intros [? _]].
Qed.

Lemma accesses_replay (els : list element) : accesses (Show <$> els) = [].
Proof. induction els as [|e els IH]; [reflexivity | exact IH]. Qed.

Lemma post_process_clean (t : DataFrame) :
  has_display_columns t -> post_process t = Ret (clean_project t).
Proof.
  intros Hall. unfold post_process.
  destruct (dropna ["Outrights"] t) as [cleaned|e] eqn:Hdrop.
  - by apply post_processing with (t := t).
  - rewrite dropna_outrights in Hdrop; [done | by inversion Hall].
Qed.

Lemma body_outcome_source (w : World) (t : DataFrame) :
  source_table w t -> body_outcome w = post_process t.
Proof.
  unfold body_outcome, fallback_result.
  intros [Hlive | ([e Hlive] & [f Hf] & Hread)]; rewrite Hlive; [done|].
  by rewrite Hf, Hread.
Qed.

(** ** The runs of [main] *)

Lemma refresh_section_run (pressed : bool) (c : Cache) :
  refresh_section pressed c = (Ret tt, refresh_events pressed, c).
Proof. by destruct pressed. Qed.

Lemma display_run (hms : string) (df : DataFrame) (c : Cache) :
  display hms df c = (Ret tt, rendered hms df, c).
Proof. unfold display, rendered. by destruct (empty df). Qed.

Lemma main_run (w : World) (now : Z) (hms : string) (pressed : bool) (c : Cache) :
  main w now hms pressed c =
  match get_live_data w now c with
  | (Ret df, evs, c') =>
      (Ret tt,
       refresh_events pressed ++
       [Show (Header "DAP Main Market Prices - Live View")] ++ evs ++ rendered hms df,
       c')
  | (Raise e, evs, c') =>
      (Raise e,
       refresh_events pressed ++
       [Show (Header "DAP Main Market Prices - Live View")] ++ evs,
       c')
  end.
Proof.
  unfold main, mbind, M_bind. rewrite refresh_section_run. unfold st at 1.
  destruct (get_live_data w now c) as [[[df|e] evs] c']; [|done].
  by rewrite display_run.
Qed.

(** ** The acquisition result *)

(** C1.  Whatever the source table is, the live one or the one read
    from the fallback file, when it contains the eight named columns a
    call of [get_live_data] that runs the body returns exactly the rows
    of that table whose [Outrights] field is populated, each reduced to
    the fields [Outrights, Last, Settle, BidQty, Bid, Ask, AskQty, VWAP]
    in that order, under exactly those eight column labels. *)
Theorem C1_acquisition_result (w : World) (t : DataFrame) (now : Z) (c : Cache) :
  cache_lookup now c = None ->
  source_table w t ->
  has_display_columns t ->
  exists df evs c',
    get_live_data w now c = (Ret df, evs, c') /\
    columns df =
      ["Outrights"; "Last"; "Settle"; "BidQty"; "Bid"; "Ask"; "AskQty"; "VWAP"] /\
    rows df =
      (fun r => (fun key => field (columns t) r key) <$> columns df) <$>
      List.filter (fun r => notna (field (columns t) r "Outrights")) (rows t).
Proof.
  intros Hmiss Hsrc Hcols.
  rewrite (get_live_data_miss w now c Hmiss), (body_outcome_source w t Hsrc),
    (post_process_clean t Hcols).
  eexists _, _, _. split; [reflexivity|]. split; reflexivity.
Qed.

Lemma quotes_has_display_columns : has_display_columns quotes.
Proof. repeat constructor. Qed.

Lemma C1_acquisition_result_witness :
  cache_lookup 0 None = None /\
  source_table (live_world quotes) quotes /\
  has_display_columns quotes /\
  exists df evs c',
    get_live_data (live_world quotes) 0 None = (Ret df, evs, c') /\
    columns df =
      ["Outrights"; "Last"; "Settle"; "BidQty"; "Bid"; "Ask"; "AskQty"; "VWAP"] /\
    rows df =
      (fun r => (fun key => field (columns quotes) r key) <$> columns df) <$>
      List.filter (fun r => notna (field (columns quotes) r "Outrights")) (rows quotes).
Proof.
  split; [reflexivity|]. split; [left; reflexivity|].
  split; [exact quotes_has_display_columns|].
  apply (C1_acquisition_result (live_world quotes) quotes 0 None).
  - reflexivity.
  - left. reflexivity.
  - exact quotes_has_display_columns.
Defined.

(** C4.  When the live read raises and the fallback file exists and
    parses, with its first line skipped, to a table that contains the
    eight named columns, [get_live_data] reads the file with
    [header=1] and returns that table after the cleaning and projection
    of the live path: a world whose live sheet holds the same table
    yields the same result. *)
Theorem C4_fallback_result (w : World) (e : exn) (first : string) (rest : list string)
    (t : DataFrame) (now : Z) (c : Cache) :
  cache_lookup now c = None ->
  live_read w = Raise e ->
  files w !! CSV_FALLBACK = Some (Lines (first :: rest)) ->
  pd_parse w rest = Ret t ->
  has_display_columns t ->
  exists evs c',
    get_live_data w now c = (Ret (clean_project t), evs, c') /\
    In (Access (ReadCsv CSV_FALLBACK 1)) evs /\
    forall w' now' c0,
      cache_lookup now' c0 = None ->
      live_read w' = Ret t ->
      exists evs' c0', get_live_data w' now' c0 = (Ret (clean_project t), evs', c0').
Proof.
  intros Hmiss Hlive Hfile Hparse Hcols.
  assert (read_csv w CSV_FALLBACK 1 = Ret t) as Hread.
  { by rewrite (read_csv_skips_first w CSV_FALLBACK first rest Hfile). }
  assert (source_table w t) as Hsrc.
  { right. split; [by exists e|]. split; [by rewrite Hfile | exact Hread]. }
  rewrite (get_live_data_miss w now c Hmiss), (body_outcome_source w t Hsrc),
    (post_process_clean t Hcols).
  eexists _, _. split; [reflexivity|]. split.
  - unfold body_events, fallback_read_events. rewrite Hlive, Hfile.
    apply in_or_app. right. simpl. tauto.
  - intros w' now' c0 Hmiss' Hlive'.
    rewrite (get_live_data_miss w' now' c0 Hmiss'),
      (body_outcome_source w' t (or_introl Hlive')), (post_process_clean t Hcols).
    by eexists _, _.
Qed.

Lemma C4_fallback_result_witness :
  cache_lookup 0 None = None /\
  live_read (fallback_world snapshot_lines) =
    Raise (ExternalError "Exception" "Excel is not running") /\
  files (fallback_world snapshot_lines) !! CSV_FALLBACK =
    Some (Lines ("Outrights,Last,Settle,BidQty,Bid,Ask,AskQty,VWAP" :: tail snapshot_lines)) /\
  pd_parse (fallback_world snapshot_lines) (tail snapshot_lines) = Ret snapshot_table /\
  has_display_columns snapshot_table /\
  exists evs c',
    get_live_data (fallback_world snapshot_lines) 0 None =
      (Ret (clean_project snapshot_table), evs, c') /\
    In (Access (ReadCsv CSV_FALLBACK 1)) evs /\
    forall w' now' c0,
      cache_lookup now' c0 = None ->
      live_read w' = Ret snapshot_table ->
      exists evs' c0',
        get_live_data w' now' c0 = (Ret (clean_project snapshot_table), evs', c0').
Proof.
  do 4 (split; [reflexivity|]). split; [repeat constructor|].
  apply (C4_fallback_result (fallback_world snapshot_lines)
           (ExternalError "Exception" "Excel is not running")
           "Outrights,Last,Settle,BidQty,Bid,Ask,AskQty,VWAP"
           (tail snapshot_lines) snapshot_table 0 None).
  - reflexivity.
  - reflexivity.
  - reflexivity.
  - reflexivity.
  - repeat constructor.
Defined.

(** With no source at hand the body returns [pd.DataFrame()]. *)
Lemma body_outcome_degraded (w : World) (e : exn) :
  live_read w = Raise e ->
  fallback_unavailable w ->
  body_outcome w = Ret DataFrame_new.
Proof.
  intros Hlive Hfb. unfold body_outcome, fallback_result. rewrite Hlive.
  destruct Hfb as [Hnone | (csv_e & [f Hf] & Hread)].
  - by rewrite Hnone.
  - by rewrite Hf, Hread.
Qed.

(** C5.  When the live read raises and the fallback file is missing or
    cannot be read, [get_live_data] returns the empty table and an
    error message naming the reason is put on the page. *)
Theorem C5_no_source_empty_result (w : World) (e : exn) (now : Z) (c : Cache) :
  cache_lookup now c = None ->
  live_read w = Raise e ->
  fallback_unavailable w ->
  exists evs c' msg,
    get_live_data w now c = (Ret DataFrame_new, evs, c') /\
    empty DataFrame_new = true /\
    In (Show (Error msg)) evs /\
    (files w !! CSV_FALLBACK = None /\ msg = msg_not_found \/
     exists csv_e, read_csv w CSV_FALLBACK 1 = Raise csv_e /\ msg = msg_read_failed csv_e).
Proof.
  intros Hmiss Hlive Hfb. rewrite (get_live_data_miss w now c Hmiss).
  unfold body_outcome, body_events, fallback_result, fallback_read_events.
  rewrite Hlive. destruct Hfb as [Hnone | (csv_e & [f Hf] & Hread)].
  - rewrite Hnone. eexists _, _, msg_not_found. split; [reflexivity|].
    split; [reflexivity|]. split; [|by left].
    apply in_or_app. right. simpl. tauto.
  - rewrite Hf, Hread. eexists _, _, (msg_read_failed csv_e).
    split; [reflexivity|]. split; [reflexivity|]. split; [|right; by exists csv_e].
    apply in_or_app. right. simpl. tauto.
Qed.

Lemma C5_no_source_empty_result_witness :
  cache_lookup 0 None = None /\
  live_read bare_world = Raise (ExternalError "Exception" "Excel is not running") /\
  fallback_unavailable bare_world /\
  exists evs c' msg,
    get_live_data bare_world 0 None = (Ret DataFrame_new, evs, c') /\
    empty DataFrame_new = true /\
    In (Show (Error msg)) evs /\
    (files bare_world !! CSV_FALLBACK = None /\ msg = msg_not_found \/
     exists csv_e, read_csv bare_world CSV_FALLBACK 1 = Raise csv_e /\
                   msg = msg_read_failed csv_e).
Proof.
  split; [reflexivity|]. split; [reflexivity|]. split; [left; reflexivity|].
  apply (C5_no_source_empty_result bare_world
           (ExternalError "Exception" "Excel is not running") 0 None).
  - reflexivity.
  - reflexivity.
  - left. reflexivity.
Defined.

(** C9.  The empty result of a degraded acquisition has no rows and no
    columns, whereas a source table that was read and whose rows were
    all filtered out yields a table with no rows under the eight
    columns of the output schema; the two results differ. *)
Theorem C9_empty_result_has_no_schema (w1 w2 : World) (e : exn) (t : DataFrame)
    (now : Z) (c : Cache) :
  cache_lookup now c = None ->
  live_read w1 = Raise e ->
  fallback_unavailable w1 ->
  source_table w2 t ->
  has_display_columns t ->
  Forall (fun r => isna (field (columns t) r "Outrights") = true) (rows t) ->
  exists degraded filtered evs1 c1 evs2 c2,
    get_live_data w1 now c = (Ret degraded, evs1, c1) /\
    get_live_data w2 now c = (Ret filtered, evs2, c2) /\
    columns degraded = [] /\ rows degraded = [] /\
    columns filtered = display_columns /\ rows filtered = [] /\
    degraded <> filtered.
Proof.
  intros Hmiss Hlive Hfb Hsrc Hcols Hnull.
  rewrite (get_live_data_miss w1 now c Hmiss), (body_outcome_degraded w1 e Hlive Hfb),
    (get_live_data_miss w2 now c Hmiss), (body_outcome_source w2 t Hsrc),
    (post_process_clean t Hcols).
  eexists _, _, _, _, _, _. do 2 (split; [reflexivity|]).
  do 3 (split; [reflexivity|]). split; [|discriminate].
  unfold clean_project. simpl.
  replace (List.filter (populated (columns t)) (rows t)) with (@nil (list cell));
    [reflexivity|].
  symmetry. induction Hnull as [|r rs Hr _ IH]; [reflexivity|].
  simpl. unfold populated at 1, notna. by rewrite Hr.
Qed.

Lemma C9_empty_result_has_no_schema_witness :
  cache_lookup 0 None = None /\
  live_read bare_world = Raise (ExternalError "Exception" "Excel is not running") /\
  fallback_unavailable bare_world /\
  source_table (live_world unquoted) unquoted /\
  has_display_columns unquoted /\
  Forall (fun r => isna (field (columns unquoted) r "Outrights") = true) (rows unquoted) /\
  exists degraded filtered evs1 c1 evs2 c2,
    get_live_data bare_world 0 None = (Ret degraded, evs1, c1) /\
    get_live_data (live_world unquoted) 0 None = (Ret filtered, evs2, c2) /\
    columns degraded = [] /\ rows degraded = [] /\
    columns filtered = display_columns /\ rows filtered = [] /\
    degraded <> filtered.
Proof.
  split; [reflexivity|]. split; [reflexivity|]. split; [left; reflexivity|].
  split; [left; reflexivity|]. split; [repeat constructor|].
  split; [repeat constructor|].
  apply (C9_empty_result_has_no_schema bare_world (live_world unquoted)
           (ExternalError "Exception" "Excel is not running") unquoted 0 None).
  - reflexivity.
  - reflexivity.
  - left. reflexivity.
  - left. reflexivity.
  - repeat constructor.
  - repeat constructor.
Defined.

(** C10.  Only a null identifier makes the cleaning step drop a row:
    every row of the source table whose [Outrights] field holds a
    non-null value, the empty string included, is in the acquisition
    result, reduced to the eight fields, and the page shows the table
    that holds it. *)
Theorem C10_non_null_identifier_kept (w : World) (t : DataFrame) (r : list cell)
    (now : Z) (hms : string) (pressed : bool) (c : Cache) :
  cache_lookup now c = None ->
  source_table w t ->
  has_display_columns t ->
  In r (rows t) ->
  isna (field (columns t) r "Outrights") = false ->
  exists df evs c' page c'',
    get_live_data w now c = (Ret df, evs, c') /\
    In ((fun key => field (columns t) r key) <$> display_columns) (rows df) /\
    main w now hms pressed c = (Ret tt, page, c'') /\
    In (Show (Dataframe df true true column_config)) page.
Proof.
  intros Hmiss Hsrc Hcols Hin Hid.
  assert (In (project (columns t) r) (rows (clean_project t))) as Hkept.
  { apply list_elem_of_In, list_elem_of_fmap_2, list_elem_of_In, filter_In.
    split; [exact Hin|]. unfold populated, notna. by rewrite Hid. }
  rewrite main_run, (get_live_data_miss w now c Hmiss), (body_outcome_source w t Hsrc),
    (post_process_clean t Hcols).
  eexists _, _, _, _, _. split; [reflexivity|]. split; [exact Hkept|].
  split; [reflexivity|].
  do 3 (apply in_or_app; right). unfold rendered.
  assert (empty (clean_project t) = false) as ->; [|simpl; tauto].
  unfold empty. destruct (rows (clean_project t)); [destruct Hkept | reflexivity].
Qed.

Lemma C10_non_null_identifier_kept_witness :
  cache_lookup 0 None = None /\
  source_table (live_world quotes) quotes /\
  has_display_columns quotes /\
  In [Str ""; Num 3.5; Num 3.25; Num 5; Num 3.25; Num 3.5; Num 6; Num 3.375; Num 40]
     (rows quotes) /\
  isna (field (columns quotes)
          [Str ""; Num 3.5; Num 3.25; Num 5; Num 3.25; Num 3.5; Num 6; Num 3.375; Num 40]
          "Outrights") = false /\
  exists df evs c' page c'',
    get_live_data (live_world quotes) 0 None = (Ret df, evs, c') /\
    In ((fun key =>
           field (columns quotes)
             [Str ""; Num 3.5; Num 3.25; Num 5; Num 3.25; Num 3.5; Num 6; Num 3.375; Num 40]
             key) <$> display_columns) (rows df) /\
    main (live_world quotes) 0 "09:30:00" false None = (Ret tt, page, c'') /\
    In (Show (Dataframe df true true column_config)) page.
Proof.
  split; [reflexivity|]. split; [left; reflexivity|].
  split; [exact quotes_has_display_columns|].
  split; [simpl; tauto|]. split; [reflexivity|].
  apply (C10_non_null_identifier_kept (live_world quotes) quotes
           [Str ""; Num 3.5; Num 3.25; Num 5; Num 3.25; Num 3.5; Num 6; Num 3.375; Num 40]
           0 "09:30:00" false None).
  - reflexivity.
  - left. reflexivity.
  - exact quotes_has_display_columns.
  - simpl. tauto.
  - reflexivity.
Defined.

(** ** Failures *)

Lemma not_found_spec (cols keys : list string) :
  Forall (fun key => In key keys /\ ~ In key cols) (not_found cols keys).
Proof.
  apply List.Forall_forall. intros key Hin.
  apply filter_In in Hin as [Hin Hneg]. split; [exact Hin|].
  intros Hcol. apply existsb_eqb_In in Hcol. rewrite Hcol in Hneg. discriminate.
Qed.

(** The post-processing raises only a [KeyError], for labels of the
    output schema that the table lacks. *)
Lemma post_process_raises (t : DataFrame) (x : exn) :
  post_process t = Raise x ->
  exists labels, x = KeyError labels /\ labels <> [] /\
    Forall (fun key => In key display_columns /\ ~ In key (columns t)) labels.
Proof.
  unfold post_process, dropna, getitem.
  destruct (not_found (columns t) ["Outrights"]) as [|k ks] eqn:Hdrop; cbn [columns].
  - destruct (not_found (columns t) display_columns) as [|k ks] eqn:Hget;
      [discriminate|].
    intros [= <-]. exists (k :: ks). split; [done|]. split; [done|].
    rewrite <- Hget. apply not_found_spec.
  - intros [= <-]. exists (k :: ks). split; [done|]. split; [done|].
    rewrite <- Hdrop. eapply List.Forall_impl; [|apply not_found_spec].
    intros key [[<-|[]] Hnot]. split; [simpl; tauto | exact Hnot].
Qed.

(** C3, as stated, fails: the live read succeeds, the table has no
    [Outrights] column, and the [KeyError] of [dropna] leaves
    [get_live_data]; no message reports it and nothing is cached. *)
Lemma C3_cleaning_failure_escapes :
  get_live_data (live_world mislabelled) 0 None =
  (Raise (KeyError ["Outrights"]),
   [Access (OpenBook EXCEL_FILE); Access (GetSheet SHEET_NAME); Access ReadRange;
    Show (Success msg_fetched)],
   None).
Proof. reflexivity. Qed.

(** C3, amended.  Every failure of a source read is caught inside
    [get_live_data], reported on the page and degrades to the next
    fallback: a failure of the live read to the fallback file, a
    missing or unreadable fallback file to the empty table.  The only
    exception that leaves [get_live_data] is the [KeyError] of the
    cleaning and projection, raised when a source was read and its
    table lacks a column of the output schema. *)
Theorem C3_read_failures_caught (w : World) (now : Z) (c : Cache) :
  cache_lookup now c = None ->
  exists o evs c',
    get_live_data w now c = (o, evs, c') /\
    (forall e, live_read w = Raise e ->
       In (Show (Error (msg_connect_failed e))) evs /\
       In (Access (PathExists CSV_FALLBACK)) evs) /\
    (forall e, live_read w = Raise e -> files w !! CSV_FALLBACK = None ->
       o = Ret DataFrame_new /\ In (Show (Error msg_not_found)) evs) /\
    (forall e csv_e, live_read w = Raise e -> is_Some (files w !! CSV_FALLBACK) ->
       read_csv w CSV_FALLBACK 1 = Raise csv_e ->
       In (Access (ReadCsv CSV_FALLBACK 1)) evs /\
       o = Ret DataFrame_new /\ In (Show (Error (msg_read_failed csv_e))) evs) /\
    (forall x, o = Raise x ->
       exists t labels, source_table w t /\ x = KeyError labels /\ labels <> [] /\
         Forall (fun key => In key display_columns /\ ~ In key (columns t)) labels).
Proof.
  intros Hmiss. exists (body_outcome w), (body_events w).
  rewrite (get_live_data_miss w now c Hmiss).
  assert (forall e, live_read w = Raise e ->
    body_events w =
      live_attempt w ++
      [Show (Error (msg_connect_failed e)); Show (Info msg_falling_back)] ++
      fallback_read_events w) as Hevents.
  { intros e He. unfold body_events. by rewrite He. }
  exists (match body_outcome w with
          | Ret v => Some {| stored_at := now; value := v;
                             replay := shown (body_events w) |}
          | Raise _ => c
          end).
  split; [by destruct (body_outcome w)|].
  split; [|split; [|split]].
  - intros e He. rewrite (Hevents e He). split.
    + apply in_or_app. right. simpl. tauto.
    + apply in_or_app. right. unfold fallback_read_events. simpl. tauto.
  - intros e He Hnone. split.
    + apply (body_outcome_degraded w e He). by left.
    + rewrite (Hevents e He). unfold fallback_read_events. rewrite Hnone.
      apply in_or_app. right. simpl. tauto.
  - intros e csv_e He [f Hf] Hread. split; [|split].
    + rewrite (Hevents e He). unfold fallback_read_events. rewrite Hf.
      apply in_or_app. right. simpl. tauto.
    + apply (body_outcome_degraded w e He). right. exists csv_e. eauto.
    + rewrite (Hevents e He). unfold fallback_read_events. rewrite Hf, Hread.
      apply in_or_app. right. simpl. tauto.
  - intros x Hx. unfold body_outcome, fallback_result in Hx.
    destruct (live_read w) as [t|e] eqn:Hlive.
    + destruct (post_process_raises t x Hx) as (labels & ? & ? & ?).
      exists t, labels. split; [by left | done].
    + destruct (files w !! CSV_FALLBACK) as [f|] eqn:Hf; [|done].
      destruct (read_csv w CSV_FALLBACK 1) as [t|] eqn:Hread; [|done].
      destruct (post_process_raises t x Hx) as (labels & ? & ? & ?).
      exists t, labels. split; [|done].
      right. split; [by exists e|]. split; [by rewrite Hf | done].
Qed.

Lemma C3_read_failures_caught_witness :
  cache_lookup 0 None = None /\
  exists o evs c',
    get_live_data (fallback_world ["unreadable"]) 0 None = (o, evs, c') /\
    (forall e, live_read (fallback_world ["unreadable"]) = Raise e ->
       In (Show (Error (msg_connect_failed e))) evs /\
       In (Access (PathExists CSV_FALLBACK)) evs) /\
    (forall e, live_read (fallback_world ["unreadable"]) = Raise e ->
       files (fallback_world ["unreadable"]) !! CSV_FALLBACK = None ->
       o = Ret DataFrame_new /\ In (Show (Error msg_not_found)) evs) /\
    (forall e csv_e, live_read (fallback_world ["unreadable"]) = Raise e ->
       is_Some (files (fallback_world ["unreadable"]) !! CSV_FALLBACK) ->
       read_csv (fallback_world ["unreadable"]) CSV_FALLBACK 1 = Raise csv_e ->
       In (Access (ReadCsv CSV_FALLBACK 1)) evs /\
       o = Ret DataFrame_new /\ In (Show (Error (msg_read_failed csv_e))) evs) /\
    (forall x, o = Raise x ->
       exists t labels, source_table (fallback_world ["unreadable"]) t /\
         x = KeyError labels /\ labels <> [] /\
         Forall (fun key => In key display_columns /\ ~ In key (columns t)) labels).
Proof.
  split; [reflexivity|].
  apply (C3_read_failures_caught (fallback_world ["unreadable"]) 0 None).
  reflexivity.
Defined.

(** ** The page *)

(** C7.  In every run of [main] in which the acquisition returns, what
    follows the acquisition on the page is the data table and the
    last-updated caption when the result is non-empty, and the
    no-data error message, without table or caption, when it is
    empty. *)
Theorem C7_table_or_error (w : World) (now : Z) (hms : string) (pressed : bool)
    (c c' : Cache) (df : DataFrame) (evs : list event) :
  get_live_data w now c = (Ret df, evs, c') ->
  exists shown_after,
    main w now hms pressed c =
      (Ret tt,
       refresh_events pressed ++
       [Show (Header "DAP Main Market Prices - Live View")] ++ evs ++ shown_after,
       c') /\
    (empty df = false ->
       shown_after =
         [Show (Dataframe df true true column_config);
          Show (Caption ("Last updated: **" +:+ hms +:+ "**"))]) /\
    (empty df = true -> shown_after = [Show (Error no_data_message)]).
Proof.
  intros Hrun. exists (rendered hms df). rewrite main_run, Hrun.
  split; [reflexivity|]. unfold rendered. by split; intros ->.
Qed.

Lemma C7_table_or_error_witness :
  get_live_data bare_world 0 None = (Ret DataFrame_new, bare_events, Some bare_entry) /\
  exists shown_after,
    main bare_world 0 "09:30:00" true None =
      (Ret tt,
       refresh_events true ++
       [Show (Header "DAP Main Market Prices - Live View")] ++ bare_events ++ shown_after,
       Some bare_entry) /\
    (empty DataFrame_new = false ->
       shown_after =
         [Show (Dataframe DataFrame_new true true column_config);
          Show (Caption ("Last updated: **" +:+ "09:30:00" +:+ "**"))]) /\
    (empty DataFrame_new = true -> shown_after = [Show (Error no_data_message)]).
Proof.
  split; [reflexivity|].
  apply (C7_table_or_error bare_world 0 "09:30:00" true None (Some bare_entry)
           DataFrame_new bare_events).
  reflexivity.
Defined.

(** C8.  For every non-empty acquisition result the table is put on
    the page with a column configuration that formats [Last],
    [Settle], [Bid] and [Ask] with 3 decimals and [VWAP] with 4. *)
Theorem C8_numeric_formats (w : World) (now : Z) (hms : string) (pressed : bool)
    (c c' : Cache) (df : DataFrame) (evs : list event) :
  get_live_data w now c = (Ret df, evs, c') ->
  empty df = false ->
  exists page cfg,
    main w now hms pressed c = (Ret tt, page, c') /\
    In (Show (Dataframe df true true cfg)) page /\
    decimals_of cfg "Last" = Some 3%nat /\
    decimals_of cfg "Settle" = Some 3%nat /\
    decimals_of cfg "Bid" = Some 3%nat /\
    decimals_of cfg "Ask" = Some 3%nat /\
    decimals_of cfg "VWAP" = Some 4%nat.
Proof.
  intros Hrun Hne. rewrite main_run, Hrun.
  eexists _, column_config. split; [reflexivity|]. split.
  - do 3 (apply in_or_app; right). unfold rendered. rewrite Hne. simpl. tauto.
  - by vm_compute.
Qed.

Lemma C8_numeric_formats_witness :
  get_live_data (live_world quotes) 0 None =
    (Ret (clean_project quotes), quotes_events, Some (quotes_entry 0)) /\
  empty (clean_project quotes) = false /\
  exists page cfg,
    main (live_world quotes) 0 "09:30:00" false None =
      (Ret tt, page, Some (quotes_entry 0)) /\
    In (Show (Dataframe (clean_project quotes) true true cfg)) page /\
    decimals_of cfg "Last" = Some 3%nat /\
    decimals_of cfg "Settle" = Some 3%nat /\
    decimals_of cfg "Bid" = Some 3%nat /\
    decimals_of cfg "Ask" = Some 3%nat /\
    decimals_of cfg "VWAP" = Some 4%nat.
Proof.
  split; [reflexivity|]. split; [reflexivity|].
  apply (C8_numeric_formats (live_world quotes) 0 "09:30:00" false None
           (Some (quotes_entry 0)) (clean_project quotes) quotes_events).
  - reflexivity.
  - reflexivity.
Defined.

(** ** The cache *)

(** After a call that returns, the cache holds the value returned, in
    an entry that is live at the time of the call. *)
Lemma get_live_data_stores (w : World) (now : Z) (c c' : Cache) (v : DataFrame)
    (evs : list event) :
  get_live_data w now c = (Ret v, evs, c') ->
  exists entry, c' = Some entry /\ value entry = v /\ now < stored_at entry + ttl.
Proof.
  unfold get_live_data.
  destruct (cache_lookup now c) as [entry|] eqn:Hlook.
  - intros [= <- <- <-]. apply cache_lookup_Some in Hlook as [-> Hlt]. by exists entry.
  - rewrite body_run. destruct (body_outcome w) as [v0|]; [|done].
    intros [= <- <- <-]. eexists. split; [reflexivity|]. simpl. split; [done|].
    unfold ttl. lia.
Qed.

(** An expired entry stays expired. *)
Lemma cache_lookup_None_mono (now1 now2 : Z) (c : Cache) :
  now1 <= now2 -> cache_lookup now1 c = None -> cache_lookup now2 c = None.
Proof.
  unfold cache_lookup. destruct c as [entry|]; [|done].
  destruct (Z.ltb_spec now1 (stored_at entry + ttl)); [done|].
  destruct (Z.ltb_spec now2 (stored_at entry + ttl)); [lia | done].
Qed.

(** C6.  Of two calls of [get_live_data] made within one memoization
    window (the second before the window of the first closes) with the
    sources unchanged, the second returns the row-set the first one
    returned, without touching a data source and leaving the cache as
    it is; and when the first call raises, so does the second. *)
Theorem C6_repeated_acquisition (w : World) (now1 now2 : Z) (c : Cache) :
  now1 <= now2 ->
  now2 < window_start now1 c + ttl ->
  exists o evs1 c1 evs2 c2,
    get_live_data w now1 c = (o, evs1, c1) /\
    get_live_data w now2 c1 = (o, evs2, c2) /\
    (forall v, o = Ret v -> c2 = c1 /\ accesses evs2 = []).
Proof.
  intros Hle Hwin. unfold window_start in Hwin.
  destruct (cache_lookup now1 c) as [entry|] eqn:Hlook.
  - apply cache_lookup_Some in Hlook as [-> Hlt].
    assert (cache_lookup now1 (Some entry) = Some entry) as Hhit1
      by (by apply cache_lookup_Some).
    assert (cache_lookup now2 (Some entry) = Some entry) as Hhit2
      by (by apply cache_lookup_Some).
    exists (Ret (value entry)), (Show <$> replay entry), (Some entry),
      (Show <$> replay entry), (Some entry).
    split; [exact (get_live_data_hit w now1 _ entry Hhit1)|].
    split; [exact (get_live_data_hit w now2 _ entry Hhit2)|].
    intros _ _. split; [reflexivity | apply accesses_replay].
  - pose proof (get_live_data_miss w now1 c Hlook) as Hrun1.
    destruct (body_outcome w) as [v|x] eqn:Hbody.
    + set (entry := {| stored_at := now1; value := v;
                       replay := shown (body_events w) |}) in *.
      assert (cache_lookup now2 (Some entry) = Some entry) as Hhit2
        by (by apply cache_lookup_Some).
      exists (Ret v), (body_events w), (Some entry), (Show <$> replay entry), (Some entry).
      split; [exact Hrun1|].
      split; [exact (get_live_data_hit w now2 _ entry Hhit2)|].
      intros _ _. split; [reflexivity | apply accesses_replay].
    + pose proof (get_live_data_miss w now2 c
                    (cache_lookup_None_mono _ _ _ Hle Hlook)) as Hrun2.
      rewrite Hbody in Hrun2.
      exists (Raise x), (body_events w), c, (body_events w), c.
      split; [exact Hrun1|]. split; [exact Hrun2 | done].
Qed.

Lemma C6_repeated_acquisition_witness :
  0 <= 1999 /\
  1999 < window_start 0 None + ttl /\
  exists o evs1 c1 evs2 c2,
    get_live_data (live_world quotes) 0 None = (o, evs1, c1) /\
    get_live_data (live_world quotes) 1999 c1 = (o, evs2, c2) /\
    (forall v, o = Ret v -> c2 = c1 /\ accesses evs2 = []).
Proof.
  split; [lia|]. split; [reflexivity|].
  apply (C6_repeated_acquisition (live_world quotes) 0 1999 None).
  - lia.
  - reflexivity.
Defined.

(** The window is bound to the entry, not to the calls: with an entry
    stored at 0 from an earlier state of the sheet, calls at 1500 and
    2500 are less than [ttl] apart but the entry expires between them,
    and the second call reads the sheet anew. *)
Example calls_across_expiry :
  (get_live_data (live_world quotes_repriced) 1500 (Some (quotes_entry 0))).1.1 =
    Ret (clean_project quotes) /\
  (get_live_data (live_world quotes_repriced) 2500 (Some (quotes_entry 0))).1.1 =
    Ret (clean_project quotes_repriced).
Proof. split; reflexivity. Qed.

(** X11.  Whether the button was pressed changes nothing but the
    balloons: the run ends the same way, leaves the same cache, makes
    the same accesses to the data sources and shows the same tables. *)
Lemma main_pressed_or_not (w : World) (now : Z) (hms : string) (c : Cache) :
  (main w now hms true c).1.1 = (main w now hms false c).1.1 /\
  (main w now hms true c).2 = (main w now hms false c).2 /\
  accesses (main w now hms true c).1.2 = accesses (main w now hms false c).1.2 /\
  tables (main w now hms true c).1.2 = tables (main w now hms false c).1.2.
Proof.
  rewrite !main_run. by destruct (get_live_data w now c) as [[[df|e] evs] c'].
Qed.

(** While the entry lives, a run triggered by the button serves it:
    no data source is touched and the cache is left as it is. *)
Lemma main_pressed_hit (w : World) (now : Z) (hms : string) (c : Cache)
    (entry : CacheEntry) :
  cache_lookup now c = Some entry ->
  exists page,
    main w now hms true c = (Ret tt, page, c) /\
    In (Show Balloons) page /\
    accesses page = [] /\
    ~ In (Access (OpenBook EXCEL_FILE)) page.
Proof.
  intros Hhit. rewrite main_run, (get_live_data_hit w now c entry Hhit).
  eexists. split; [reflexivity|].
  assert (accesses
            (refresh_events true ++
             [Show (Header "DAP Main Market Prices - Live View")] ++
             (Show <$> replay entry) ++ rendered hms (value entry)) = []) as Hacc.
  { unfold accesses. rewrite !omap_app. fold (accesses (Show <$> replay entry)).
    rewrite accesses_replay. unfold rendered. by destruct (empty (value entry)). }
  split; [simpl; tauto|]. split; [exact Hacc|].
  intros Hin. apply list_elem_of_In in Hin.
  assert (OpenBook EXCEL_FILE ∈ @nil access) as Hnil; [|by apply elem_of_nil in Hnil].
  rewrite <- Hacc. unfold accesses. apply list_elem_of_omap. eauto.
Qed.

(** C2, on the code.  A first run at timer reading 0 fetches [quotes]
    and caches it.  One second later the sheet holds other prices and
    the button is pressed: the run shows the balloons, touches no data
    source, leaves the cache as it is and puts the table of the first
    run on the page, not that of the sheet.  Pressing the button does
    not invalidate the cached acquisition result. *)
Theorem C2_button_serves_cached_result :
  exists page1 page2,
    main (live_world quotes) 0 "09:30:00" false None =
      (Ret tt, page1, Some (quotes_entry 0)) /\
    cache_lookup 1000 (Some (quotes_entry 0)) = Some (quotes_entry 0) /\
    main (live_world quotes_repriced) 1000 "09:30:01" true (Some (quotes_entry 0)) =
      (Ret tt, page2, Some (quotes_entry 0)) /\
    In (Show Balloons) page2 /\
    accesses page2 = [] /\
    tables page2 = [clean_project quotes] /\
    get_live_data_body (live_world quotes_repriced) (Some (quotes_entry 0)) =
      (Ret (clean_project quotes_repriced), quotes_events, Some (quotes_entry 0)) /\
    clean_project quotes <> clean_project quotes_repriced.
Proof.
  eexists _, _. split; [reflexivity|]. split; [reflexivity|].
  split; [reflexivity|]. split; [simpl; tauto|].
  split; [reflexivity|]. split; [reflexivity|]. split; [reflexivity|].
  discriminate.
Qed.

(** ** Further properties: a source table that lacks a column *)

Lemma not_found_lacking (cols : list string) :
  not_found cols display_columns = lacking cols.
Proof.
  unfold not_found, lacking. apply filter_ext. intros key.
  destruct (existsb (String.eqb key) cols) eqn:Hex; simpl; symmetry.
  - apply bool_decide_eq_false_2. intros Hnot. apply Hnot.
    apply list_elem_of_In. by apply existsb_eqb_In.
  - apply bool_decide_eq_true_2. intros Hin. apply list_elem_of_In in Hin.
    apply existsb_eqb_In in Hin. congruence.
Qed.

Lemma post_process_lacking (t : DataFrame) :
  lacking (columns t) <> [] ->
  exists labels,
    post_process t = Raise (KeyError labels) /\
    ("Outrights" ∉ columns t -> labels = ["Outrights"]) /\
    ("Outrights" ∈ columns t -> labels = lacking (columns t)).
Proof.
  intros Hlack. unfold post_process, dropna, getitem. unfold not_found at 1.
  cbn [List.filter].
  destruct (existsb (String.eqb "Outrights") (columns t)) eqn:Hex; cbn [negb columns].
  - rewrite not_found_lacking.
    destruct (lacking (columns t)) as [|k ks] eqn:Hl; [done|].
    exists (k :: ks). split; [reflexivity|]. split; [|done].
    intros Hnot. exfalso. apply Hnot, list_elem_of_In. by apply existsb_eqb_In.
  - exists ["Outrights"]. split; [reflexivity|]. split; [done|].
    intros Hin. apply list_elem_of_In, existsb_eqb_In in Hin. congruence.
Qed.

(** X1.  When the source table that was read lacks a column of the
    output schema, a call that runs the body raises a [KeyError] and
    leaves the cache as it was: the error names [Outrights] alone when
    that column is absent (the cleaning fails first), and otherwise the
    absent columns of the schema, in schema order. *)
Theorem X1_missing_column_raises (w : World) (t : DataFrame) (now : Z) (c : Cache) :
  cache_lookup now c = None ->
  source_table w t ->
  lacking (columns t) <> [] ->
  exists labels evs,
    get_live_data w now c = (Raise (KeyError labels), evs, c) /\
    ("Outrights" ∉ columns t -> labels = ["Outrights"]) /\
    ("Outrights" ∈ columns t -> labels = lacking (columns t)).
Proof.
  intros Hmiss Hsrc Hlack.
  destruct (post_process_lacking t Hlack) as (labels & Hpost & Hout & Hrest).
  exists labels, (body_events w).
  rewrite (get_live_data_miss w now c Hmiss), (body_outcome_source w t Hsrc), Hpost.
  done.
Qed.

Lemma X1_missing_column_raises_witness :
  cache_lookup 0 None = None /\
  source_table (live_world partial_sheet) partial_sheet /\
  lacking (columns partial_sheet) = ["Bid"; "VWAP"] /\
  exists labels evs,
    get_live_data (live_world partial_sheet) 0 None = (Raise (KeyError labels), evs, None) /\
    ("Outrights" ∉ columns partial_sheet -> labels = ["Outrights"]) /\
    ("Outrights" ∈ columns partial_sheet -> labels = lacking (columns partial_sheet)).
Proof.
  split; [reflexivity|]. split; [left; reflexivity|]. split; [reflexivity|].
  apply (X1_missing_column_raises (live_world partial_sheet) partial_sheet 0 None).
  - reflexivity.
  - left. reflexivity.
  - discriminate.
Defined.

(** The body puts no table on the page. *)
Lemma tables_body_events (w : World) : tables (body_events w) = [].
Proof.
  unfold body_events, live_attempt, fallback_read_events.
  destruct (live_read w); destruct (xw_Book w EXCEL_FILE) as [book|];
    try destruct (sheets book SHEET_NAME);
    destruct (files w !! CSV_FALLBACK);
    try destruct (read_csv w CSV_FALLBACK 1); reflexivity.
Qed.

(** The elements of the body are the success banner, the three error
    banners and the info banner. *)
Lemma shown_body_events (w : World) (el : element) :
  In (Show el) (body_events w) ->
  el = Success msg_fetched \/ el = Info msg_falling_back \/ el = Error msg_not_found \/
  (exists e, el = Error (msg_connect_failed e)) \/
  (exists e, el = Error (msg_read_failed e)).
Proof.
  unfold body_events, live_attempt, fallback_read_events.
  destruct (live_read w) as [t|e]; destruct (xw_Book w EXCEL_FILE) as [book|];
    try destruct (sheets book SHEET_NAME);
    destruct (files w !! CSV_FALLBACK);
    try destruct (read_csv w CSV_FALLBACK 1) as [|csv_e];
    simpl; intros Hin;
    repeat match goal with
           | H : _ \/ _ |- _ => destruct H as [H|H]
           | H : False |- _ => destruct H
           | H : Access _ = Show _ |- _ => discriminate H
           | H : Show _ = Show _ |- _ => injection H as <-
           end;
    eauto 10.
Qed.

Lemma no_data_not_in_body (w : World) :
  ~ In (Show (Error no_data_message)) (body_events w).
Proof.
  intros Hin.
  destruct (shown_body_events w _ Hin) as [H|[H|[H|[[e H]|[e H]]]]]; discriminate H.
Qed.

(** X2.  When the acquisition raises, the run of [main] ends in the
    same exception right after the controls, the section header and the
    banners of the acquisition: the page carries no table, no caption
    and no no-data message, and the cache is left as it was. *)
Theorem X2_failed_acquisition_ends_run (w : World) (now : Z) (hms : string)
    (pressed : bool) (c c' : Cache) (x : exn) (evs : list event) :
  get_live_data w now c = (Raise x, evs, c') ->
  exists page,
    main w now hms pressed c = (Raise x, page, c) /\
    tables page = [] /\
    (forall body, ~ In (Show (Caption body)) page) /\
    ~ In (Show (Error no_data_message)) page.
Proof.
  intros Hrun.
  assert (cache_lookup now c = None) as Hmiss.
  { destruct (cache_lookup now c) as [entry|] eqn:Hlook; [|done].
    by rewrite (get_live_data_hit w now c entry Hlook) in Hrun. }
  rewrite (get_live_data_miss w now c Hmiss) in Hrun.
  destruct (body_outcome w) as [v|x0] eqn:Hbody; [done|].
  injection Hrun as -> <- <-.
  rewrite main_run, (get_live_data_miss w now c Hmiss), Hbody.
  eexists. split; [reflexivity|]. split; [|split].
  - unfold tables. rewrite !omap_app. fold (tables (body_events w)).
    rewrite tables_body_events. by destruct pressed.
  - intros body Hin. rewrite !in_app_iff in Hin.
    destruct Hin as [Hin|[Hin|Hin]].
    + destruct pressed; simpl in Hin;
        repeat (destruct Hin as [Hin|Hin]; [discriminate Hin|]); destruct Hin.
    + simpl in Hin. destruct Hin as [Hin|[]]. discriminate Hin.
    + destruct (shown_body_events w _ Hin) as [H|[H|[H|[[e H]|[e H]]]]]; discriminate H.
  - intros Hin. rewrite !in_app_iff in Hin.
    destruct Hin as [Hin|[Hin|Hin]].
    + destruct pressed; simpl in Hin;
        repeat (destruct Hin as [Hin|Hin]; [discriminate Hin|]); destruct Hin.
    + simpl in Hin. destruct Hin as [Hin|[]]. discriminate Hin.
    + by apply (no_data_not_in_body w).
Qed.

Lemma X2_failed_acquisition_ends_run_witness :
  get_live_data (live_world mislabelled) 0 None =
    (Raise (KeyError ["Outrights"]), quotes_events, None) /\
  exists page,
    main (live_world mislabelled) 0 "09:30:00" true None =
      (Raise (KeyError ["Outrights"]), page, None) /\
    tables page = [] /\
    (forall body, ~ In (Show (Caption body)) page) /\
    ~ In (Show (Error no_data_message)) page.
Proof.
  split; [reflexivity|].
  apply (X2_failed_acquisition_ends_run (live_world mislabelled) 0 "09:30:00" true
           None None (KeyError ["Outrights"]) quotes_events).
  reflexivity.
Defined.

(** ** Further properties: the order of the reads *)

(** X3.  A call that runs the body opens the live workbook first.  It
    asks whether the fallback file exists exactly when the live read
    raised, and reads the file exactly when, moreover, it exists; it
    touches no workbook, sheet or file other than the configured ones
    and reads the file with [header=1] only. *)
Theorem X3_access_discipline (w : World) (now : Z) (c c' : Cache)
    (o : Outcome DataFrame) (evs : list event) :
  cache_lookup now c = None ->
  get_live_data w now c = (o, evs, c') ->
  head evs = Some (Access (OpenBook EXCEL_FILE)) /\
  (In (Access (PathExists CSV_FALLBACK)) evs <-> exists e, live_read w = Raise e) /\
  (In (Access (ReadCsv CSV_FALLBACK 1)) evs <->
   (exists e, live_read w = Raise e) /\ is_Some (files w !! CSV_FALLBACK)) /\
  (forall a, In (Access a) evs ->
     a = OpenBook EXCEL_FILE \/ a = GetSheet SHEET_NAME \/ a = ReadRange \/
     a = PathExists CSV_FALLBACK \/ a = ReadCsv CSV_FALLBACK 1).
Proof.
  intros Hmiss Hrun. rewrite (get_live_data_miss w now c Hmiss) in Hrun.
  assert (evs = body_events w) as -> by (destruct (body_outcome w); congruence).
  clear Hrun. unfold body_events, live_attempt, fallback_read_events, live_read.
  destruct (xw_Book w EXCEL_FILE) as [book|e0];
    [destruct (sheets book SHEET_NAME) as [sheet|e1];
     [destruct (range_A1_table sheet) as [t|e2]|]|];
    destruct (files w !! CSV_FALLBACK) as [f|];
    try destruct (read_csv w CSV_FALLBACK 1) as [t'|csv_e];
    simpl;
    (split; [reflexivity|]);
    (split; [split; [intros Hin | intros [e He]] |
     split; [split; [intros Hin | intros [[e He] Hsome]] | intros a Hin]]);
    repeat match goal with
           | H : _ \/ _ |- _ => destruct H as [H|H]
           | H : False |- _ => destruct H
           | H : is_Some None |- _ => destruct H as [? H]
           end;
    simplify_eq;
    eauto 12.
Qed.

Lemma X3_access_discipline_witness :
  cache_lookup 0 None = None /\
  get_live_data (fallback_world snapshot_lines) 0 None =
    (Ret (clean_project snapshot_table), snapshot_events, Some snapshot_entry) /\
  head snapshot_events = Some (Access (OpenBook EXCEL_FILE)) /\
  (In (Access (PathExists CSV_FALLBACK)) snapshot_events <->
   exists e, live_read (fallback_world snapshot_lines) = Raise e) /\
  (In (Access (ReadCsv CSV_FALLBACK 1)) snapshot_events <->
   (exists e, live_read (fallback_world snapshot_lines) = Raise e) /\
   is_Some (files (fallback_world snapshot_lines) !! CSV_FALLBACK)) /\
  (forall a, In (Access a) snapshot_events ->
     a = OpenBook EXCEL_FILE \/ a = GetSheet SHEET_NAME \/ a = ReadRange \/
     a = PathExists CSV_FALLBACK \/ a = ReadCsv CSV_FALLBACK 1).
Proof.
  split; [reflexivity|]. split; [reflexivity|].
  exact (X3_access_discipline (fallback_world snapshot_lines) 0 None
           (Some snapshot_entry) (Ret (clean_project snapshot_table)) snapshot_events
           eq_refl eq_refl).
Defined.

(** ** Further properties: the cache over time *)

Lemma cache_lookup_None_iff (now : Z) (c : Cache) :
  cache_lookup now c = None <-> forall entry, c = Some entry -> stored_at entry + ttl <= now.
Proof.
  unfold cache_lookup. destruct c as [e0|]; [|by split].
  destruct (Z.ltb_spec now (stored_at e0 + ttl)) as [Hlt|Hge]; split.
  - done.
  - intros Hall. specialize (Hall e0 eq_refl). lia.
  - by intros _ entry [= <-].
  - done.
Qed.

Lemma not_polled_replay (els : list element) : ~ polled (Show <$> els).
Proof.
  unfold polled. intros Hin. apply list_elem_of_In, list_elem_of_fmap in Hin.
  by destruct Hin as (el & Heq & _).
Qed.

Lemma polled_body_events (w : World) : polled (body_events w).
Proof.
  unfold polled, body_events, live_attempt.
  destruct (live_read w); destruct (xw_Book w EXCEL_FILE) as [book|];
    try destruct (sheets book SHEET_NAME); simpl; tauto.
Qed.

(** X4.  Within the memoization window of a call that returned, every
    further call returns the same row-set whatever has become of the
    sources in the meantime, the empty result of a degraded
    acquisition included; no data source is touched and the cache is
    left as it is. *)
Theorem X4_window_hides_source_changes (w1 w2 : World) (now1 now2 : Z) (c c1 : Cache)
    (v : DataFrame) (evs1 : list event) :
  get_live_data w1 now1 c = (Ret v, evs1, c1) ->
  now2 < window_start now1 c + ttl ->
  exists evs2,
    get_live_data w2 now2 c1 = (Ret v, evs2, c1) /\
    accesses evs2 = [] /\
    ~ polled evs2.
Proof.
  intros Hrun Hwin. unfold window_start in Hwin.
  destruct (cache_lookup now1 c) as [entry|] eqn:Hlook.
  - rewrite (get_live_data_hit w1 now1 c entry Hlook) in Hrun.
    injection Hrun as <- _ <-. apply cache_lookup_Some in Hlook as [-> _].
    exists (Show <$> replay entry).
    split; [|split; [apply accesses_replay | apply not_polled_replay]].
    apply get_live_data_hit. by apply cache_lookup_Some.
  - rewrite (get_live_data_miss w1 now1 c Hlook) in Hrun.
    destruct (body_outcome w1) as [v0|]; [|done]. injection Hrun as -> _ <-.
    eexists. split; [|split; [apply accesses_replay | apply not_polled_replay]].
    apply (get_live_data_hit w2 now2 _
             {| stored_at := now1; value := v; replay := shown (body_events w1) |}).
    by apply cache_lookup_Some.
Qed.

Lemma X4_window_hides_source_changes_witness :
  get_live_data bare_world 0 None = (Ret DataFrame_new, bare_events, Some bare_entry) /\
  1999 < window_start 0 None + ttl /\
  exists evs2,
    get_live_data (live_world quotes) 1999 (Some bare_entry) =
      (Ret DataFrame_new, evs2, Some bare_entry) /\
    accesses evs2 = [] /\
    ~ polled evs2.
Proof.
  split; [reflexivity|]. split; [reflexivity|].
  apply (X4_window_hides_source_changes bare_world (live_world quotes) 0 1999 None
           (Some bare_entry) DataFrame_new bare_events).
  - reflexivity.
  - reflexivity.
Defined.

(** X5.  A call made when the cache is empty, or at or after the expiry
    [stored_at + ttl] of its entry, opens the live workbook again.
    When it returns, the cache holds what it returned in an entry
    stored at its own timer reading; when it raises, the cache is left
    as it was, so that a failure is never served from the cache. *)
Theorem X5_expired_entry_refreshed (w : World) (now : Z) (c : Cache) :
  (forall entry, c = Some entry -> stored_at entry + ttl <= now) ->
  exists o evs c',
    get_live_data w now c = (o, evs, c') /\
    polled evs /\
    (forall v, o = Ret v ->
       exists entry, c' = Some entry /\ stored_at entry = now /\ value entry = v) /\
    (forall x, o = Raise x -> c' = c).
Proof.
  intros Hexp. apply cache_lookup_None_iff in Hexp.
  rewrite (get_live_data_miss w now c Hexp).
  destruct (body_outcome w) as [v|x].
  - eexists _, _, _. split; [reflexivity|]. split; [apply polled_body_events|].
    split; [|done]. intros v0 [= <-]. eexists. by split.
  - eexists _, _, _. split; [reflexivity|]. split; [apply polled_body_events|].
    split; [done|]. by intros.
Qed.

Lemma X5_expired_entry_refreshed_witness :
  (forall entry, Some (quotes_entry 0) = Some entry -> stored_at entry + ttl <= 2000) /\
  exists o evs c',
    get_live_data (live_world quotes_repriced) 2000 (Some (quotes_entry 0)) = (o, evs, c') /\
    polled evs /\
    (forall v, o = Ret v ->
       exists entry, c' = Some entry /\ stored_at entry = 2000 /\ value entry = v) /\
    (forall x, o = Raise x -> c' = Some (quotes_entry 0)).
Proof.
  assert (forall entry, Some (quotes_entry 0) = Some entry ->
                        stored_at entry + ttl <= 2000) as Hexp.
  { intros entry [= <-]. simpl. unfold ttl. lia. }
  split; [exact Hexp|].
  exact (X5_expired_entry_refreshed (live_world quotes_repriced) 2000
           (Some (quotes_entry 0)) Hexp).
Defined.

Lemma polled_accesses (evs : list event) :
  polled evs <-> In (OpenBook EXCEL_FILE) (accesses evs).
Proof.
  unfold polled, accesses. rewrite <- !list_elem_of_In, list_elem_of_omap. split.
  - intros Hin. by exists (Access (OpenBook EXCEL_FILE)).
  - intros ([a|el] & Hin & Heq); [|done]. by injection Heq as ->.
Qed.

Lemma accesses_refresh_events (pressed : bool) : accesses (refresh_events pressed) = [].
Proof. by destruct pressed. Qed.

Lemma accesses_rendered (hms : string) (df : DataFrame) : accesses (rendered hms df) = [].
Proof. unfold rendered. by destruct (empty df). Qed.

(** What a run of [main] does to the data sources and to the cache is
    what its call of [get_live_data] does. *)
Lemma main_acquisition (w : World) (now : Z) (hms : string) (pressed : bool)
    (c c' : Cache) (o : Outcome unit) (page : list event) :
  main w now hms pressed c = (o, page, c') ->
  exists o' evs,
    get_live_data w now c = (o', evs, c') /\
    accesses page = accesses evs /\
    (o = Ret tt -> exists df, o' = Ret df).
Proof.
  rewrite main_run.
  destruct (get_live_data w now c) as [[[df|x] evs] c0]; intros Heq;
    apply pair_equal_spec in Heq as [Heq <-];
    apply pair_equal_spec in Heq as [<- <-];
    eexists _, _; (split; [reflexivity|]); (split; [|by eauto]);
    unfold accesses; rewrite !omap_app;
    fold (accesses (refresh_events pressed)); fold (accesses evs);
    rewrite accesses_refresh_events.
  - fold (accesses (rendered hms df)). rewrite accesses_rendered.
    simpl. by rewrite app_nil_r.
  - reflexivity.
Qed.

(** A call that opens the workbook has missed the cache. *)
Lemma polled_miss (w : World) (now : Z) (c c' : Cache) (o : Outcome DataFrame)
    (evs : list event) :
  get_live_data w now c = (o, evs, c') -> polled evs -> cache_lookup now c = None.
Proof.
  intros Hrun Hpoll. destruct (cache_lookup now c) as [entry|] eqn:Hlook; [|done].
  rewrite (get_live_data_hit w now c entry Hlook) in Hrun. injection Hrun as _ <- _.
  by apply not_polled_replay in Hpoll.
Qed.

(** The stamp of the entry never goes back. *)
Lemma get_live_data_stamp (s : Z) (w : World) (now : Z) (c c' : Cache)
    (o : Outcome DataFrame) (evs : list event) :
  stamped_from s c -> get_live_data w now c = (o, evs, c') -> stamped_from s c'.
Proof.
  intros (entry & -> & Hle) Hrun.
  destruct (cache_lookup now (Some entry)) as [e0|] eqn:Hlook.
  - rewrite (get_live_data_hit w now _ e0 Hlook) in Hrun. injection Hrun as _ _ <-.
    by exists entry.
  - rewrite (get_live_data_miss w now _ Hlook) in Hrun.
    pose proof (proj1 (cache_lookup_None_iff now (Some entry)) Hlook entry eq_refl) as Hexp.
    destruct (body_outcome w); injection Hrun as _ _ <-.
    + eexists. split; [reflexivity|]. simpl. unfold ttl in Hexp. lia.
    + by exists entry.
Qed.

Lemma session_stamp (s : Z) (runs : list Run) (c c' : Cache)
    (pages : list (Outcome unit * list event)) :
  stamped_from s c -> session runs c = (pages, c') -> stamped_from s c'.
Proof.
  revert c pages. induction runs as [|r rest IH]; intros c pages Hst; simpl.
  - by intros [= _ <-].
  - destruct (run_main r c) as [[o page] c1] eqn:Hrun.
    destruct (session rest c1) as [pages' c2] eqn:Hrest. intros [= _ <-].
    apply (IH c1 pages'); [|exact Hrest].
    destruct (main_acquisition _ _ _ _ _ _ _ _ Hrun) as (o' & evs & Hget & _).
    exact (get_live_data_stamp s _ _ _ _ _ _ Hst Hget).
Qed.

(** X6.  The live workbook is opened at most once per [ttl]: after a
    run that opened it and rendered, whatever runs follow and whatever
    buttons are pressed in them, no later run opens it before [ttl]
    has passed on the timer. *)
Theorem X6_polls_ttl_apart (r1 r2 : Run) (between : list Run) (c c1 c2 c3 : Cache)
    (page1 page2 : list event) (pages : list (Outcome unit * list event))
    (o2 : Outcome unit) :
  run_main r1 c = (Ret tt, page1, c1) ->
  polled page1 ->
  session between c1 = (pages, c2) ->
  run_main r2 c2 = (o2, page2, c3) ->
  polled page2 ->
  run_now r1 + ttl <= run_now r2.
Proof.
  intros Hrun1 Hpoll1 Hbetween Hrun2 Hpoll2.
  destruct (main_acquisition _ _ _ _ _ _ _ _ Hrun1) as (o1' & evs1 & Hget1 & Hacc1 & Hret1).
  destruct (Hret1 eq_refl) as [df ->].
  apply polled_accesses in Hpoll1. rewrite Hacc1 in Hpoll1. apply polled_accesses in Hpoll1.
  pose proof (polled_miss _ _ _ _ _ _ Hget1 Hpoll1) as Hmiss1.
  rewrite (get_live_data_miss _ _ _ Hmiss1) in Hget1.
  destruct (body_outcome (run_world r1)); [|done]. injection Hget1 as _ _ <-.
  assert (stamped_from (run_now r1) c2) as (entry & -> & Hle).
  { eapply session_stamp; [|exact Hbetween]. eexists. split; [reflexivity|]. simpl. lia. }
  destruct (main_acquisition _ _ _ _ _ _ _ _ Hrun2) as (o2' & evs2 & Hget2 & Hacc2 & _).
  apply polled_accesses in Hpoll2. rewrite Hacc2 in Hpoll2. apply polled_accesses in Hpoll2.
  pose proof (polled_miss _ _ _ _ _ _ Hget2 Hpoll2) as Hmiss2.
  pose proof (proj1 (cache_lookup_None_iff _ _) Hmiss2 entry eq_refl). lia.
Qed.

Lemma X6_polls_ttl_apart_witness :
  (run_main first_run None).1.1 = Ret tt /\
  polled (run_main first_run None).1.2 /\
  ~ polled (run_main second_run (run_main first_run None).2).1.2 /\
  polled (run_main third_run (session [second_run] (run_main first_run None).2).2).1.2 /\
  run_now first_run + ttl <= run_now third_run.
Proof.
  split; [reflexivity|].
  assert (polled (run_main first_run None).1.2) as Hp1.
  { apply polled_accesses. vm_compute. tauto. }
  assert (polled (run_main third_run
                    (session [second_run] (run_main first_run None).2).2).1.2) as Hp3.
  { apply polled_accesses. vm_compute. tauto. }
  split; [exact Hp1|]. split.
  { intros Hp2. apply polled_accesses in Hp2. vm_compute in Hp2. exact Hp2. }
  split; [exact Hp3|].
  apply (X6_polls_ttl_apart first_run third_run [second_run] None
           (run_main first_run None).2
           (session [second_run] (run_main first_run None).2).2
           (run_main third_run (session [second_run] (run_main first_run None).2).2).2
           (run_main first_run None).1.2
           (run_main third_run (session [second_run] (run_main first_run None).2).2).1.2
           (session [second_run] (run_main first_run None).2).1
           (run_main third_run (session [second_run] (run_main first_run None).2).2).1.1).
  - reflexivity.
  - exact Hp1.
  - reflexivity.
  - reflexivity.
  - exact Hp3.
Defined.

(** ** Further properties: what every result looks like *)

Lemma positions_from_spec (cols : list string) (key : string) (n i : nat) :
  In i (positions_from n key cols) <->
  exists j, i = (n + j)%nat /\ cols !! j = Some key.
Proof.
  revert n. induction cols as [|c cs IH]; intros n; simpl.
  - split; [done | by intros (j & _ & ?)].
  - destruct (String.eqb_spec c key) as [->|Hne]; simpl; rewrite IH; split.
    + intros [<-|(j & -> & Hj)].
      * exists 0%nat. split; [lia | done].
      * exists (S j). split; [lia | done].
    + intros ([|j] & -> & Hj).
      * left. lia.
      * right. exists j. split; [lia | done].
    + intros (j & -> & Hj). exists (S j). split; [lia | done].
    + intros ([|j] & -> & Hj).
      * simpl in Hj. congruence.
      * exists j. split; [lia | done].
Qed.

Lemma positions_spec (cols : list string) (key : string) (i : nat) :
  In i (positions key cols) <-> cols !! i = Some key.
Proof.
  unfold positions. rewrite positions_from_spec. split.
  - by intros (j & -> & Hj).
  - intros Hi. by exists i.
Qed.

(** What the post-processing returns, when it returns. *)
Lemma post_process_Ret (t df : DataFrame) :
  post_process t = Ret df ->
  Forall (fun key => In key (columns t)) display_columns /\
  df = take_columns (get_indexer_for (columns t) display_columns)
         {| columns := columns t;
            rows := List.filter
                      (fun r => forallb (fun i => notna (cell_at r i))
                                  (get_indexer_for (columns t) ["Outrights"]))
                      (rows t) |}.
Proof.
  unfold post_process, dropna, getitem.
  destruct (not_found (columns t) ["Outrights"]); [|done]. cbn [columns].
  destruct (not_found (columns t) display_columns) eqn:Hnf; [|done].
  intros [= <-]. split; [by apply not_found_nil | reflexivity].
Qed.

Lemma body_outcome_Ret (w : World) (df : DataFrame) :
  body_outcome w = Ret df ->
  df = DataFrame_new \/ exists t, source_table w t /\ post_process t = Ret df.
Proof.
  unfold body_outcome, fallback_result.
  destruct (live_read w) as [t|e] eqn:Hlive.
  - intros Hpost. right. exists t. split; [by left | done].
  - destruct (files w !! CSV_FALLBACK) as [f|] eqn:Hf; [|intros [= <-]; by left].
    destruct (read_csv w CSV_FALLBACK 1) as [t|] eqn:Hread; [|intros [= <-]; by left].
    intros Hpost. right. exists t. split; [|done].
    right. split; [by exists e|]. split; [by rewrite Hf | done].
Qed.

(** X7.  Whatever table the source yields, with labels repeated or in
    any order, a result that a run of the body returns is either the
    table without rows and columns of a degraded acquisition or a table
    whose column labels are those of the output schema, every one of
    them and no other, with no more rows than the source table. *)
Theorem X7_result_schema (w : World) (now : Z) (c c' : Cache) (df : DataFrame)
    (evs : list event) :
  cache_lookup now c = None ->
  get_live_data w now c = (Ret df, evs, c') ->
  df = DataFrame_new \/
  exists t, source_table w t /\
    (forall key, In key (columns df) <-> In key display_columns) /\
    (length (rows df) <= length (rows t))%nat.
Proof.
  intros Hmiss Hrun. rewrite (get_live_data_miss w now c Hmiss) in Hrun.
  destruct (body_outcome w) as [v|] eqn:Hbody; [|done]. injection Hrun as -> _ _.
  destruct (body_outcome_Ret w df Hbody) as [->|(t & Hsrc & Hpost)]; [by left|].
  right. exists t. split; [exact Hsrc|].
  destruct (post_process_Ret t df Hpost) as [Hall ->]. split.
  - intros key. unfold take_columns, get_indexer_for. cbn [columns].
    rewrite <- list_elem_of_In, list_elem_of_fmap. split.
    + intros (i & -> & Hi). apply list_elem_of_In, in_flat_map in Hi.
      destruct Hi as (k & Hk & Hi). apply positions_spec in Hi. by rewrite Hi.
    + intros Hkey. pose proof (proj1 (List.Forall_forall _ _) Hall key Hkey) as Hcol.
      apply list_elem_of_In, list_elem_of_lookup in Hcol as [i Hi].
      exists i. split; [by rewrite Hi|].
      apply list_elem_of_In, in_flat_map. exists key. split; [exact Hkey|].
      by apply positions_spec.
  - unfold take_columns. cbn [rows]. rewrite length_fmap. apply filter_length_le.
Qed.

Lemma X7_result_schema_witness :
  cache_lookup 0 None = None /\
  get_live_data (live_world quotes) 0 None =
    (Ret (clean_project quotes), quotes_events, Some (quotes_entry 0)) /\
  (clean_project quotes = DataFrame_new \/
   exists t, source_table (live_world quotes) t /\
     (forall key, In key (columns (clean_project quotes)) <-> In key display_columns) /\
     (length (rows (clean_project quotes)) <= length (rows t))%nat).
Proof.
  split; [reflexivity|]. split; [reflexivity|].
  exact (X7_result_schema (live_world quotes) 0 None (Some (quotes_entry 0))
           (clean_project quotes) quotes_events eq_refl eq_refl).
Defined.

(** X8.  Whatever table the source yields, no row of a result that a
    run of the body returns has a null cell in a column labelled
    [Outrights]: rows lacking an instrument identifier never reach the
    page. *)
Theorem X8_no_null_identifier (w : World) (now : Z) (c c' : Cache) (df : DataFrame)
    (evs : list event) :
  cache_lookup now c = None ->
  get_live_data w now c = (Ret df, evs, c') ->
  forall r i,
    In r (rows df) ->
    columns df !! i = Some "Outrights" ->
    isna (cell_at r i) = false.
Proof.
  intros Hmiss Hrun r i Hr Hi. rewrite (get_live_data_miss w now c Hmiss) in Hrun.
  destruct (body_outcome w) as [v|] eqn:Hbody; [|done]. injection Hrun as -> _ _.
  destruct (body_outcome_Ret w df Hbody) as [->|(t & _ & Hpost)]; [done|].
  destruct (post_process_Ret t df Hpost) as [_ ->].
  unfold take_columns in Hr, Hi. cbn [rows columns] in Hr, Hi.
  apply list_elem_of_In, list_elem_of_fmap in Hr as (r0 & -> & Hr0).
  apply list_elem_of_In, filter_In in Hr0 as [_ Hkept].
  rewrite list_lookup_fmap in Hi.
  destruct (get_indexer_for (columns t) display_columns !! i) as [j|] eqn:Hj; [|done].
  simpl in Hi. injection Hi as Hlabel.
  assert (columns t !! j = Some "Outrights") as Hcol.
  { destruct (columns t !! j) as [lab|]; simpl in Hlabel; [by subst | done]. }
  unfold cell_at at 1. rewrite list_lookup_fmap, Hj. simpl.
  assert (notna (cell_at r0 j) = true) as Hnotna.
  { apply (proj1 (forallb_forall _ _) Hkept).
    unfold get_indexer_for. simpl. rewrite app_nil_r. by apply positions_spec. }
  unfold notna in Hnotna. by destruct (isna (cell_at r0 j)).
Qed.

Lemma X8_no_null_identifier_witness :
  cache_lookup 0 None = None /\
  exists df evs c',
    get_live_data (live_world two_identifiers) 0 None = (Ret df, evs, c') /\
    rows df = [[Str "ZNH6"; Str "ZN"; Num 1.5; Num 1.25; Num 10; Num 1.25; Num 1.5; Num 7;
                Num 1.375]] /\
    forall r i,
      In r (rows df) ->
      columns df !! i = Some "Outrights" ->
      isna (cell_at r i) = false.
Proof.
  split; [reflexivity|].
  eexists _, _, _. split; [reflexivity|]. split; [reflexivity|].
  exact (X8_no_null_identifier (live_world two_identifiers) 0 None _ _ _ eq_refl eq_refl).
Defined.

(** ** Further properties: cleaning twice, and sheets without quotes *)

Lemma clean_project_has_display_columns (t : DataFrame) :
  has_display_columns (clean_project t).
Proof. repeat constructor. Qed.

Lemma project_project (cols : list string) (r : list cell) :
  project display_columns (project cols r) = project cols r.
Proof. reflexivity. Qed.

Lemma populated_project (cols : list string) (r : list cell) :
  populated display_columns (project cols r) = populated cols r.
Proof. reflexivity. Qed.

Lemma clean_rows_idempotent (cols : list string) (rs : list (list cell)) :
  project display_columns <$>
    List.filter (populated display_columns)
      (project cols <$> List.filter (populated cols) rs) =
  project cols <$> List.filter (populated cols) rs.
Proof.
  induction rs as [|r rs IH]; [reflexivity|].
  cbn [List.filter]. destruct (populated cols r) eqn:Hr; [|exact IH].
  rewrite fmap_cons. cbn [List.filter]. rewrite populated_project, Hr.
  by rewrite fmap_cons, project_project, IH.
Qed.

Lemma clean_project_idempotent (t : DataFrame) :
  clean_project (clean_project t) = clean_project t.
Proof.
  unfold clean_project. cbn [columns rows]. f_equal. apply clean_rows_idempotent.
Qed.

(** X9.  Cleaning is idempotent: when the result of an acquisition
    from a table that contains the eight named columns is itself the
    source table of an acquisition, that acquisition returns it
    unchanged. *)
Theorem X9_cleaning_idempotent (w1 w2 : World) (t df : DataFrame) (now1 now2 : Z)
    (c1 c1' c2 : Cache) (evs : list event) :
  cache_lookup now1 c1 = None ->
  source_table w1 t ->
  has_display_columns t ->
  get_live_data w1 now1 c1 = (Ret df, evs, c1') ->
  cache_lookup now2 c2 = None ->
  source_table w2 df ->
  exists evs2 c2', get_live_data w2 now2 c2 = (Ret df, evs2, c2').
Proof.
  intros Hmiss1 Hsrc1 Hcols Hrun1 Hmiss2 Hsrc2.
  rewrite (get_live_data_miss w1 now1 c1 Hmiss1), (body_outcome_source w1 t Hsrc1),
    (post_process_clean t Hcols) in Hrun1.
  injection Hrun1 as <- _ _.
  rewrite (get_live_data_miss w2 now2 c2 Hmiss2), (body_outcome_source w2 _ Hsrc2),
    (post_process_clean _ (clean_project_has_display_columns t)),
    clean_project_idempotent.
  by eexists _, _.
Qed.

Lemma X9_cleaning_idempotent_witness :
  cache_lookup 0 None = None /\
  source_table (live_world quotes) quotes /\
  has_display_columns quotes /\
  get_live_data (live_world quotes) 0 None =
    (Ret (clean_project quotes), quotes_events, Some (quotes_entry 0)) /\
  source_table (live_world (clean_project quotes)) (clean_project quotes) /\
  exists evs2 c2',
    get_live_data (live_world (clean_project quotes)) 0 None =
      (Ret (clean_project quotes), evs2, c2').
Proof.
  split; [reflexivity|]. split; [left; reflexivity|].
  split; [exact quotes_has_display_columns|]. split; [reflexivity|].
  split; [left; reflexivity|].
  apply (X9_cleaning_idempotent (live_world quotes) (live_world (clean_project quotes))
           quotes (clean_project quotes) 0 0 None (Some (quotes_entry 0)) None
           quotes_events).
  - reflexivity.
  - left. reflexivity.
  - exact quotes_has_display_columns.
  - reflexivity.
  - reflexivity.
  - left. reflexivity.
Defined.

Lemma filter_unpopulated (cols : list string) (rs : list (list cell)) :
  Forall (fun r => isna (field cols r "Outrights") = true) rs ->
  List.filter (populated cols) rs = [].
Proof.
  induction 1 as [|r rs Hr _ IH]; [reflexivity|].
  simpl. unfold populated at 1, notna. by rewrite Hr.
Qed.

Lemma tables_live_attempt (w : World) : tables (live_attempt w) = [].
Proof.
  unfold live_attempt. destruct (xw_Book w EXCEL_FILE) as [book|]; [|done].
  by destruct (sheets book SHEET_NAME).
Qed.

(** X10.  A live sheet that is read and has the eight columns but no
    row with an identifier, a sheet of headers only included, is
    reported twice over: the page carries the banner of the successful
    fetch and, in place of a table, the no-data error. *)
Theorem X10_sheet_without_quotes (w : World) (t : DataFrame) (now : Z) (hms : string)
    (pressed : bool) (c : Cache) :
  cache_lookup now c = None ->
  live_read w = Ret t ->
  has_display_columns t ->
  Forall (fun r => isna (field (columns t) r "Outrights") = true) (rows t) ->
  exists page c',
    main w now hms pressed c = (Ret tt, page, c') /\
    In (Show (Success msg_fetched)) page /\
    In (Show (Error no_data_message)) page /\
    tables page = [] /\
    (forall body, ~ In (Show (Caption body)) page).
Proof.
  intros Hmiss Hlive Hcols Hnull.
  assert (clean_project t = {| columns := display_columns; rows := [] |}) as Hclean.
  { unfold clean_project. by rewrite (filter_unpopulated _ _ Hnull). }
  rewrite main_run, (get_live_data_miss w now c Hmiss),
    (body_outcome_source w t (or_introl Hlive)), (post_process_clean t Hcols), Hclean.
  unfold body_events. rewrite Hlive.
  eexists _, _. split; [reflexivity|]. split; [|split; [|split]].
  - apply in_or_app. right. apply in_or_app. right. apply in_or_app. left.
    apply in_or_app. right. simpl. tauto.
  - do 3 (apply in_or_app; right). simpl. tauto.
  - unfold tables. rewrite !omap_app. fold (tables (live_attempt w)).
    rewrite tables_live_attempt. by destruct pressed.
  - intros body Hin. rewrite !in_app_iff in Hin.
    destruct Hin as [Hin|[Hin|[[Hin|Hin]|Hin]]].
    + destruct pressed; simpl in Hin;
        repeat (destruct Hin as [Hin|Hin]; [discriminate Hin|]); destruct Hin.
    + simpl in Hin. destruct Hin as [Hin|[]]. discriminate Hin.
    + unfold live_attempt in Hin. destruct (xw_Book w EXCEL_FILE) as [book|];
        [destruct (sheets book SHEET_NAME)|]; simpl in Hin;
        repeat (destruct Hin as [Hin|Hin]; [discriminate Hin|]); destruct Hin.
    + simpl in Hin. destruct Hin as [Hin|[]]. discriminate Hin.
    + simpl in Hin. destruct Hin as [Hin|[]]. discriminate Hin.
Qed.

Lemma X10_sheet_without_quotes_witness :
  cache_lookup 0 None = None /\
  live_read (live_world headers_only) = Ret headers_only /\
  has_display_columns headers_only /\
  Forall (fun r => isna (field (columns headers_only) r "Outrights") = true)
         (rows headers_only) /\
  exists page c',
    main (live_world headers_only) 0 "09:30:00" false None = (Ret tt, page, c') /\
    In (Show (Success msg_fetched)) page /\
    In (Show (Error no_data_message)) page /\
    tables page = [] /\
    (forall body, ~ In (Show (Caption body)) page).
Proof.
  split; [reflexivity|]. split; [reflexivity|]. split; [repeat constructor|].
  split; [constructor|].
  apply (X10_sheet_without_quotes (live_world headers_only) headers_only 0 "09:30:00"
           false None).
  - reflexivity.
  - reflexivity.
  - repeat constructor.
  - constructor.
Defined.
